(** * metisoft-facebook-auth: the access-token middleware of [src/index.js]

    A shallow embedding of the module: the token cache
    [__mapAccessToken2UserData], the connection handle [dbc], the resolver
    [__getUserDataFromAccessToken], the store adapter [__saveUserToDb] and
    the Express middleware [facebookAuthMiddleware].

    Promise chains are run to completion in order: a [.then] is a bind, a
    [.catch] is a handler, and a rejected promise and a thrown exception are
    the same [Throw].  What the outside world answers (the Graph API, the
    database, the session store) is an [environment] handed to each run;
    what the module does to the outside world is appended to a [trace].

    An object is known by its own properties: the token cache is the [gmap]
    of the own properties of the plain object [{}] it starts as, a payload
    is the list of its own properties.  A method is looked up like any
    property, so an own property named [hasOwnProperty] shadows the method of
    [Object.prototype]; and writing the property [__proto__] of a plain
    object sets its prototype and adds no own property.  Requests are served
    one after the other, each promise chain running to its end before the
    next request. *)

From Stdlib Require Import ZArith String List Lia.
From stdpp Require Import base option gmap strings list fin_maps.

Local Open Scope string_scope.
Local Open Scope list_scope.
Set Warnings "-register-all".

(** ** JavaScript values *)

(** The values that flow through the module: what [JSON.parse] builds, and
    what a database row holds.  Numbers are integers here; an object is the
    list of its own properties (first binding of a key is the property). *)
Inductive jsval : Type :=
  | JUndefined
  | JNull
  | JBool (b : bool)
  | JNum (n : Z)
  | JStr (s : string)
  | JObj (props : list (string * jsval)).

Inductive js_error : Type :=
  | TypeError (message : string)
  | SyntaxError (message : string)
  | Error (message : string)
  | StatusCodeError (status : Z)
  | RequestError (message : string)
  | DatabaseError (message : string).

(** ToBoolean. *)
Definition truthy (v : jsval) : bool :=
  match v with
  | JUndefined | JNull => false
  | JBool b => b
  | JNum n => negb (n =? 0)%Z
  | JStr s => negb (String.eqb s "")
  | JObj _ => true
  end.


Inductive result (A : Type) : Type :=
  | Ok (a : A)
  | Throw (e : js_error).
Arguments Ok {A} a.
Arguments Throw {A} e.

Fixpoint own_property (props : list (string * jsval)) (key : string) : option jsval :=
  match props with
  | [] => None
  | (k, v) :: rest => if String.eqb k key then Some v else own_property rest key
  end.

(** [v.hasOwnProperty(key)] for the keys the module asks about ([id], [name],
    [email]): a primitive is boxed and owns none of them, [null] and
    [undefined] have no properties at all, and an object that owns a property
    named [hasOwnProperty] (no parsed value is a function) cannot be asked. *)
Definition hasOwnProperty (v : jsval) (key : string) : result bool :=
  match v with
  | JUndefined | JNull => Throw (TypeError "Cannot read property 'hasOwnProperty'")
  | JObj props =>
      match own_property props "hasOwnProperty" with
      | Some _ => Throw (TypeError "facebookUserData.hasOwnProperty is not a function")
      | None => Ok (bool_decide (is_Some (own_property props key)))
      end
  | _ => Ok false
  end.

(** [v[key]], for the same keys. *)
Definition get_property (v : jsval) (key : string) : result jsval :=
  match v with
  | JUndefined | JNull => Throw (TypeError "Cannot read property of null")
  | JObj props => Ok (default JUndefined (own_property props key))
  | _ => Ok JUndefined
  end.

(** ** Data model *)

(** [InternalUserData]; a property that is not there reads [JUndefined]. *)
Record InternalUserData : Type := mkUser {
  id : jsval;
  facebookId : jsval;
  email : jsval;
  fullName : jsval
}.

Definition set_id (u : InternalUserData) (v : jsval) : InternalUserData :=
  mkUser v (facebookId u) (email u) (fullName u).

(** [req.session.user], [req.session], [req.body], [req].  A token is a
    string; a property that is not there is [None]. *)
Record SessionUser : Type := mkSessionUser {
  session_facebookAccessToken : option string
}.

Record Session : Type := mkSession {
  user : option SessionUser
}.

Record Body : Type := mkBody {
  facebookAccessToken : option string
}.

Record Request : Type := mkRequest {
  url : string;
  body : option Body;
  session : option Session
}.

(** [res]: the four properties the module writes under
    [res.locals.metisoft.user]; [None] while that object does not exist. *)
Record Response : Type := mkResponse {
  locals_metisoft_user : option InternalUserData
}.

(** [dbc], the handle [DatabaseConnection.getConnection] gives. *)
Record DatabaseConnection : Type := mkConnection {
  database : string
}.

(** ** The outside world *)

(** The text a Graph API call resolves with, as [JSON.parse] sees it. *)
Inductive response_text : Type :=
  | Malformed (text : string)
  | Json (v : jsval).

Inductive http_reply : Type :=
  | HttpRejects (e : js_error)
  | HttpResolves (text : response_text).

(** The [id] the database generates for a row it inserts and hands back
    through [returning('id')]: a number or a string, never [null]. *)
Inductive generated_id : Type :=
  | IdNumber (n : Z)
  | IdString (s : string).

Definition id_value (g : generated_id) : jsval :=
  match g with
  | IdNumber n => JNum n
  | IdString s => JStr s
  end.

(** What [squelQueryReturningOne] settles with: a rejection, or a row
    ([None] when it resolves with [null] or [undefined]). *)
Inductive db_reply (A : Type) : Type :=
  | DbRejects (e : js_error)
  | DbResolves (row : option A).
Arguments DbRejects {A} e.
Arguments DbResolves {A} row.

(** What the outside world answers during one request: the Graph API to a
    token, the database to the lookup by [facebook_user_id] and to the
    insert of ([facebook_user_id], [email], [full_name]) returning [id], the
    session store to [save] ([Some error] is handed to the callback). *)
Record environment : Type := mkEnv {
  graph_api : string -> http_reply;
  select_site_user : jsval -> db_reply InternalUserData;
  insert_site_user : jsval -> jsval -> jsval -> db_reply generated_id;
  session_save : option js_error
}.

(** What a run leaves behind, in order:
    - [HttpGet]: the GET on [graph.facebook.com/v2.10/me] with the token;
    - [StoreCall]: [__saveUserToDb] was entered with this record;
    - [SqlSelect], [SqlInsert]: a query handed to [squelQueryReturningOne];
    - [ConsoleError]: [console.error];
    - [SessionDestroy], [SessionSave]: [req.session.destroy()], [.save(cb)];
    - [ResSend], [ResEnd], [Next]: [res.send(payload)], [res.end()], [next()]. *)
Inductive event : Type :=
  | HttpGet (accessToken : string)
  | StoreCall (userData : InternalUserData)
  | SqlSelect (facebook_user_id : jsval)
  | SqlInsert (facebook_user_id email_ full_name : jsval)
  | ConsoleError (e : js_error)
  | SessionDestroy
  | SessionSave
  | ResSend (payload : jsval)
  | ResEnd
  | Next.

(** The module's variables, the request in flight, and the effects so far. *)
Record world : Type := mkWorld {
  __mapAccessToken2UserData : gmap string InternalUserData;
  dbc : option DatabaseConnection;
  req : Request;
  res : Response;
  trace : list event
}.

Definition set_cache (m : gmap string InternalUserData) (w : world) : world :=
  mkWorld m (dbc w) (req w) (res w) (trace w).
Definition set_dbc (c : option DatabaseConnection) (w : world) : world :=
  mkWorld (__mapAccessToken2UserData w) c (req w) (res w) (trace w).
Definition set_req (r : Request) (w : world) : world :=
  mkWorld (__mapAccessToken2UserData w) (dbc w) r (res w) (trace w).
Definition set_res (r : Response) (w : world) : world :=
  mkWorld (__mapAccessToken2UserData w) (dbc w) (req w) r (trace w).
Definition log (e : event) (w : world) : world :=
  mkWorld (__mapAccessToken2UserData w) (dbc w) (req w) (res w) (trace w ++ [e]).

(** ** Promises *)

Definition promise (A : Type) : Type := world -> result A * world.

Definition resolve {A} (a : A) : promise A := fun w => (Ok a, w).
Definition reject {A} (e : js_error) : promise A := fun w => (Throw e, w).
Definition settle {A} (r : result A) : promise A := fun w => (r, w).

Definition then_ {A B} (p : promise A) (f : A -> promise B) : promise B :=
  fun w => match p w with
           | (Ok a, w') => f a w'
           | (Throw e, w') => (Throw e, w')
           end.

Definition catch_ {A} (p : promise A) (h : js_error -> promise A) : promise A :=
  fun w => match p w with
           | (Ok a, w') => (Ok a, w')
           | (Throw e, w') => h e w'
           end.

Definition effect (f : world -> world) : promise unit := fun w => (Ok tt, f w).
Definition emit (e : event) : promise unit := effect (log e).

Notation "x <- p ;; q" := (then_ p (fun x => q))
  (at level 100, p at next level, right associativity).
Notation "p ;; q" := (then_ p (fun _ => q))
  (at level 100, right associativity).

(** ** The module *)

(** Lines 94-104. *)
Definition __getUserDataFromFacebook (env : environment) (accessToken : string)
  : promise response_text :=
  emit (HttpGet accessToken) ;;
  match graph_api env accessToken with
  | HttpRejects e => reject e
  | HttpResolves text => resolve text
  end.

(** Line 55. *)
Definition JSON_parse (text : response_text) : result jsval :=
  match text with
  | Malformed _ => Throw (SyntaxError "Unexpected token")
  | Json v => Ok v
  end.

(** Lines 117-123; [&&] stops at the first [false]. *)
Definition __isValidFacebookUserData (facebookUserData : jsval) : result bool :=
  match hasOwnProperty facebookUserData "id" with
  | Throw e => Throw e
  | Ok false => Ok false
  | Ok true =>
      match hasOwnProperty facebookUserData "name" with
      | Throw e => Throw e
      | Ok false => Ok false
      | Ok true => hasOwnProperty facebookUserData "email"
      end
  end.

(** Lines 136-144: [id] is left out of the new object. *)
Definition __formatUserDataAsInternal (facebookUserData : jsval)
  : result InternalUserData :=
  match get_property facebookUserData "id" with
  | Throw e => Throw e
  | Ok fid =>
      match get_property facebookUserData "name" with
      | Throw e => Throw e
      | Ok name =>
          match get_property facebookUserData "email" with
          | Throw e => Throw e
          | Ok mail => Ok (mkUser JUndefined fid mail name)
          end
      end
  end.

(** Lines 181-194; [dbc.getSquelSelect()] throws while [dbc] is [undefined]. *)
Definition __getUserFromDb (env : environment) (facebookId : jsval)
  : promise (option InternalUserData) :=
  fun w =>
    match dbc w with
    | None => (Throw (TypeError "Cannot read property 'getSquelSelect' of undefined"), w)
    | Some _ =>
        (emit (SqlSelect facebookId) ;;
         match select_site_user env facebookId with
         | DbRejects e => reject e
         | DbResolves row => resolve row
         end) w
    end.

(** Lines 208-228.  The query is built before the promise exists, so a
    missing [dbc] throws past the [.catch]; [row.id] of a row that is not
    there throws inside the [.then] and is caught. *)
Definition __addUserToDb (env : environment) (userData : InternalUserData)
  : promise (option InternalUserData) :=
  fun w =>
    match dbc w with
    | None => (Throw (TypeError "Cannot read property 'getSquelInsert' of undefined"), w)
    | Some _ =>
        catch_
          (row <- (emit (SqlInsert (facebookId userData) (email userData) (fullName userData)) ;;
                   match insert_site_user env (facebookId userData) (email userData)
                                          (fullName userData) with
                   | DbRejects e => reject e
                   | DbResolves row => resolve row
                   end) ;;
           match row with
           | None => reject (TypeError "Cannot read property 'id' of undefined")
           | Some row_id => resolve (Some (set_id userData (id_value row_id)))
           end)
          (fun err => emit (ConsoleError err) ;; resolve None)
          w
    end.

(** Lines 158-168. *)
Definition __saveUserToDb (env : environment) (userData : InternalUserData)
  : promise (option InternalUserData) :=
  emit (StoreCall userData) ;;
  user <- __getUserFromDb env (facebookId userData) ;;
  match user with
  | None => reject (TypeError "Cannot read property 'id' of undefined")
  | Some user =>
      if negb (truthy (id user)) then __addUserToDb env userData
      else resolve (Some user)
  end.

(** Line 67, [__mapAccessToken2UserData[accessToken] = userData] on the own
    properties [m]: for [__proto__] the prototype is set and the own
    properties stay as they are (unless an own [__proto__] is there). *)
Definition assign (accessToken : string) (userData : InternalUserData)
           (m : gmap string InternalUserData) : gmap string InternalUserData :=
  if String.eqb accessToken "__proto__" && negb (bool_decide (is_Some (m !! accessToken)))
  then m
  else <[accessToken := userData]> m.

(** Lines 46-79.  Line 47 calls [hasOwnProperty] on the cache: once a token
    named [hasOwnProperty] is cached the call throws, before any promise
    exists.  That is the only [Throw] of this function; the promise it
    returns settles every failure itself. *)
Definition __getUserDataFromAccessToken (env : environment) (accessToken : string)
  : promise (option InternalUserData) :=
  fun w =>
    match __mapAccessToken2UserData w !! "hasOwnProperty" with
    | Some _ =>
        (Throw (TypeError "__mapAccessToken2UserData.hasOwnProperty is not a function"), w)
    | None =>
    match __mapAccessToken2UserData w !! accessToken with
    | Some cached => (Ok (Some cached), w)
    | None =>
        catch_
          (userData <-
             (userDataFromFacebook <- __getUserDataFromFacebook env accessToken ;;
              parsed <- settle (JSON_parse userDataFromFacebook) ;;
              valid <- settle (__isValidFacebookUserData parsed) ;;
              if (valid : bool) then
                internalUserData <- settle (__formatUserDataAsInternal parsed) ;;
                __saveUserToDb env internalUserData
              else resolve None) ;;
           match userData with
           | Some userData =>
               effect (fun w => set_cache (assign accessToken userData
                                             (__mapAccessToken2UserData w)) w) ;;
               resolve (Some userData)
           | None => resolve None
           end)
          (fun err => emit (ConsoleError err) ;; resolve None)
          w
    end
    end.

(** Lines 320-322. *)
Definition __isLogoutRoute (url : string) : bool :=
  String.eqb url "/services/userAuth/logout".

(** A token counts when it is there and not the empty string. *)
Definition truthy_token (t : option string) : option string :=
  match t with
  | Some s => if String.eqb s "" then None else Some s
  | None => None
  end.

(** Lines 251-255: the body's token first, else the session's; [None] is
    [accessToken] left [undefined]. *)
Definition extract_token (r : Request) : option string :=
  match body r ≫= (fun b => truthy_token (facebookAccessToken b)) with
  | Some t => Some t
  | None =>
      s ← session r; u ← user s; truthy_token (session_facebookAccessToken u)
  end.

(** The property name [accessToken] turns into as a key. *)
Definition property_key (accessToken : option string) : string :=
  default "undefined" accessToken.

Definition LOGIN_REQUIRED : jsval := JObj [("error", JStr "LOGIN_REQUIRED")].

(** Lines 296-298 and 307-309:
    [if (req.session && req.session.user) delete req.session.user]. *)
Definition delete_session_user (r : Request) : Request :=
  match session r with
  | Some s =>
      match user s with
      | Some _ => mkRequest (url r) (body r) (Some (mkSession None))
      | None => r
      end
  | None => r
  end.

(** Lines 296-303 and 307-314. *)
Definition send_login_required : promise unit :=
  effect (fun w => set_req (delete_session_user (req w)) w) ;;
  emit (ResSend LOGIN_REQUIRED) ;;
  emit ResEnd.

(** Line 259, [req.session.destroy()]: a [TypeError] when [req.session] is
    [undefined]; otherwise the session is gone from [req] afterwards. *)
Definition session_destroy : promise unit :=
  fun w =>
    match session (req w) with
    | None => (Throw (TypeError "Cannot read property 'destroy' of undefined"), w)
    | Some _ =>
        (emit SessionDestroy ;;
         effect (fun w => set_req (mkRequest (url (req w)) (body (req w)) None) w)) w
    end.

(** Lines 280-288, up to the call of [save]; tells whether it was called. *)
Definition remember_token (accessToken : string) : promise bool :=
  fun w =>
    match session (req w) with
    | None => (Ok false, w)
    | Some _ =>
        (effect (fun w => set_req (mkRequest (url (req w)) (body (req w))
                                     (Some (mkSession (Some (mkSessionUser (Some accessToken))))))
                                  w) ;;
         emit SessionSave ;;
         resolve true) w
    end.

(** Lines 283-287: the callback of [save], run when the session store has
    answered, which is after [next()] has been called. *)
Definition save_callback (env : environment) : promise unit :=
  match session_save env with
  | Some error => emit (ConsoleError error)
  | None => resolve tt
  end.

(** Lines 247-316.  An exception thrown by the call on line 264 itself
    leaves the middleware: the [.catch] of line 293 is attached to the
    promise the call returns, and handles what happens after it. *)
Definition facebookAuthMiddleware (env : environment) : promise unit :=
  fun w =>
    let accessToken := extract_token (req w) in
    if __isLogoutRoute (url (req w)) then
      (effect (fun w => set_cache (delete (property_key accessToken)
                                     (__mapAccessToken2UserData w)) w) ;;
       session_destroy ;;
       emit Next) w
    else
      match accessToken with
      | Some accessToken =>
          match __getUserDataFromAccessToken env accessToken w with
          | (Throw thrown, w) => (Throw thrown, w)
          | (Ok userData, w) =>
              catch_
                (match userData with
                 | None => reject (Error "LOGIN_REQUIRED")
                 | Some userData =>
                     effect (set_res (mkResponse (Some userData))) ;;
                     saving <- remember_token accessToken ;;
                     emit Next ;;
                     if (saving : bool) then save_callback env else resolve tt
                 end)
                (fun err => emit (ConsoleError err) ;; send_login_required)
                w
          end
      | None => send_login_required w
      end.

(** Lines 334-336. *)
Definition config (databaseConfig_connection_database : string) : promise unit :=
  effect (set_dbc (Some (mkConnection databaseConfig_connection_database))).

(** ** Reading a trace *)

Definition is_provider_call (e : event) : bool :=
  match e with HttpGet _ => true | _ => false end.
Definition is_store_call (e : event) : bool :=
  match e with StoreCall _ => true | _ => false end.
Definition is_select (e : event) : bool :=
  match e with SqlSelect _ => true | _ => false end.
Definition is_insert (e : event) : bool :=
  match e with SqlInsert _ _ _ => true | _ => false end.
Definition is_response (e : event) : bool :=
  match e with ResSend _ | ResEnd | Next => true | _ => false end.

Definition count (p : event -> bool) (tr : list event) : nat :=
  length (List.filter p tr).

Definition provider_calls : list event -> nat := count is_provider_call.
Definition store_calls : list event -> nat := count is_store_call.
Definition selects : list event -> nat := count is_select.
Definition inserts : list event -> nat := count is_insert.

(** One request served: [req] and a fresh [res] are put in place, the
    middleware runs, the module's variables and the trace live on.  A
    [Throw] is an exception that reached the caller. *)
Definition serve (env : environment) (r : Request) (w : world) : result unit * world :=
  facebookAuthMiddleware env (set_res (mkResponse None) (set_req r w)).

Fixpoint serve_all (requests : list (environment * Request)) (w : world) : world :=
  match requests with
  | [] => w
  | (env, r) :: rest => serve_all rest (snd (serve env r w))
  end.

Definition initial_world : world :=
  mkWorld ∅ None (mkRequest "" None None) (mkResponse None) [].

(** ** Vocabulary of the claims *)

(** The cache can still be asked: no token named [hasOwnProperty] is cached. *)
Definition unshadowed (w : world) : Prop :=
  __mapAccessToken2UserData w !! "hasOwnProperty" = None.

(** The own property [key] of a parsed value, if it is an object that has
    one. *)
Definition get_own (v : jsval) (key : string) : option jsval :=
  match v with
  | JObj props => own_property props key
  | _ => None
  end.

(** A token the cache can hold without harm: neither the name of the
    prototype slot nor the name of the method line 47 calls. *)
Definition ordinary (accessToken : string) : Prop :=
  accessToken <> "__proto__" /\ accessToken <> "hasOwnProperty".

(** [payload] does not own [key] (or cannot be asked). *)
Definition lacks (payload : jsval) (key : string) : Prop :=
  hasOwnProperty payload key <> Ok true.

(** The record [__formatUserDataAsInternal] builds from an object. *)
Definition internal_of (props : list (string * jsval)) : InternalUserData :=
  mkUser JUndefined
         (default JUndefined (own_property props "id"))
         (default JUndefined (own_property props "email"))
         (default JUndefined (own_property props "name")).

(** A resolution that went all the way: the provider sent a valid payload,
    a connection was there, and the store gave [userData], either a row it
    already had or the translated payload under a freshly generated [id]. *)
Definition fully_successful (env : environment) (accessToken : string)
           (userData : InternalUserData) : Prop :=
  exists props,
    graph_api env accessToken = HttpResolves (Json (JObj props))
    /\ __isValidFacebookUserData (JObj props) = Ok true
    /\ ((select_site_user env (facebookId (internal_of props)) = DbResolves (Some userData)
         /\ truthy (id userData) = true)
        \/ (exists row generated,
               select_site_user env (facebookId (internal_of props)) = DbResolves (Some row)
               /\ truthy (id row) = false
               /\ insert_site_user env (facebookId (internal_of props))
                                   (email (internal_of props)) (fullName (internal_of props))
                  = DbResolves (Some generated)
               /\ userData = set_id (internal_of props) (id_value generated))).




(** What the client and the downstream handlers get to see. *)
Definition outcome (tr : list event) : list event := List.filter is_response tr.

(** ** Scenarios of the specification *)

Module Scenario.

Definition ann : jsval :=
  JObj [("id", JStr "F1"); ("name", JStr "Ann"); ("email", JStr "a@x.com")].
Definition bob : jsval := JObj [("id", JStr "F2"); ("name", JStr "Bob")].

Definition facebook (token : string) : http_reply :=
  if String.eqb token "T1" then HttpResolves (Json ann)
  else if String.eqb token "T2" then HttpResolves (Json bob)
  else HttpRejects (StatusCodeError 400).

Definition no_row : InternalUserData := mkUser JUndefined JUndefined JUndefined JUndefined.

(** An empty table whose next generated [id] is 7. *)
Definition env : environment :=
  mkEnv facebook (fun _ => DbResolves (Some no_row))
        (fun _ _ _ => DbResolves (Some (IdNumber 7))) None.

Definition ann_record : InternalUserData :=
  mkUser (JNum 7) (JStr "F1") (JStr "a@x.com") (JStr "Ann").

Definition configured : world := snd (config "site" initial_world).

Definition login (token : string) : Request :=
  mkRequest "/services/data" (Some (mkBody (Some token))) (Some (mkSession None)).

Definition logout (token : string) : Request :=
  mkRequest "/services/userAuth/logout" None
            (Some (mkSession (Some (mkSessionUser (Some token))))).

End Scenario.

Module Reinsert.

(** The row the store holds for ["F1"], an older address in it. *)
Definition stored : InternalUserData :=
  mkUser (JNum 3) (JStr "F1") (JStr "old@x.com") (JStr "Ann Old").

Definition fetched : InternalUserData :=
  mkUser JUndefined (JStr "F1") (JStr "a@x.com") (JStr "Ann").

Definition env : environment :=
  mkEnv Scenario.facebook (fun _ => DbResolves (Some stored))
        (fun _ _ _ => DbResolves (Some (IdNumber 7))) None.

End Reinsert.

Module NullId.

(** A payload that owns the three keys, its [id] being [null]. *)
Definition payload : jsval :=
  JObj [("id", JNull); ("name", JStr "Ann"); ("email", JStr "a@x.com")].

Definition env : environment :=
  mkEnv (fun _ => HttpResolves (Json payload))
        (fun _ => DbResolves (Some Scenario.no_row))
        (fun _ _ _ => DbResolves (Some (IdNumber 7))) None.

Definition record : InternalUserData :=
  mkUser (JNum 7) JNull (JStr "a@x.com") (JStr "Ann").

End NullId.

Module Logout.

(** A logout request that came without a session. *)
Definition bare : Request := mkRequest "/services/userAuth/logout" None None.

(** The same, the token in its body. *)
Definition with_body_token (token : string) : Request :=
  mkRequest "/services/userAuth/logout" (Some (mkBody (Some token))) None.

(** The world once ["T1"] has logged in. *)
Definition logged_in : world :=
  snd (serve Scenario.env (Scenario.login "T1") Scenario.configured).

End Logout.

Module Special.

(** A provider that answers every token with Ann's profile, over an empty
    table whose next [id] is 7. *)
Definition env : environment :=
  mkEnv (fun _ => HttpResolves (Json Scenario.ann))
        (fun _ => DbResolves (Some Scenario.no_row))
        (fun _ _ _ => DbResolves (Some (IdNumber 7))) None.

(** Ann's profile with one more key, named like the method. *)
Definition shadowing : jsval :=
  JObj [("id", JStr "F1"); ("name", JStr "Ann"); ("email", JStr "a@x.com");
        ("hasOwnProperty", JNum 1)].

Definition shadowing_env : environment :=
  mkEnv (fun _ => HttpResolves (Json shadowing))
        (fun _ => DbResolves (Some Scenario.no_row))
        (fun _ _ _ => DbResolves (Some (IdNumber 7))) None.

End Special.

(** ** The two ends of an authenticated route *)

(** Lines 293-304 and 306-315, from the world they start in: the session's
    user deleted, the failure sent, the response ended. *)
Definition rejected (w : world) : world :=
  log ResEnd (log (ResSend LOGIN_REQUIRED) (set_req (delete_session_user (req w)) w)).

(** Lines 271-290 and the callback of [save], from the world the resolver
    left. *)
Definition accepted (env : environment) (accessToken : string)
           (userData : InternalUserData) (w : world) : world :=
  snd ((effect (set_res (mkResponse (Some userData))) ;;
        saving <- remember_token accessToken ;;
        emit Next ;;
        if (saving : bool) then save_callback env else resolve tt) w).

(** The events of one request stay within its budget: an insert needs a
    lookup, a lookup a call of the store adapter, that a call of the
    provider, and there is at most one of those. *)
Definition within_budget (evs : list event) : bool :=
  Nat.leb (inserts evs) (selects evs)
  && Nat.leb (selects evs) (store_calls evs)
  && Nat.leb (store_calls evs) (provider_calls evs)
  && Nat.leb (provider_calls evs) 1.

(** The request a client sends next: no body, the session as the last
    request left it. *)
Definition follow_up (url : string) (w : world) : Request :=
  mkRequest url None (session (req w)).

Module Outage.

(** The provider is unreachable and the database refuses every query. *)
Definition env : environment :=
  mkEnv (fun _ => HttpRejects (RequestError "ECONNREFUSED"))
        (fun _ => DbRejects (DatabaseError "connection terminated"))
        (fun _ _ _ => DbRejects (DatabaseError "connection terminated"))
        (Some (Error "session store down")).

(** The provider answers, the lookup is refused. *)
Definition lookup_refused : environment :=
  mkEnv Scenario.facebook
        (fun _ => DbRejects (DatabaseError "connection terminated"))
        (fun _ _ _ => DbResolves (Some (IdNumber 7))) None.

(** The insert resolves without a row. *)
Definition insert_without_row : environment :=
  mkEnv Scenario.facebook (fun _ => DbResolves (Some Scenario.no_row))
        (fun _ _ _ => DbResolves None) None.

(** A request whose body carries ["T2"] while its session holds ["T1"]. *)
Definition relogin : Request :=
  mkRequest "/services/data" (Some (mkBody (Some "T2")))
            (Some (mkSession (Some (mkSessionUser (Some "T1"))))).

End Outage.

(** ** Running the definitions *)

Ltac unfold_module :=
  unfold facebookAuthMiddleware, __getUserDataFromAccessToken, __saveUserToDb,
    __addUserToDb, __getUserFromDb, __getUserDataFromFacebook, send_login_required,
    session_destroy, remember_token, save_callback, catch_, then_, settle, resolve, reject,
    emit, effect in *.

Ltac run := unfold_module; simpl in *; repeat (case_match; simplify_eq/=).

Lemma count_app p (a b : list event) : count p (a ++ b) = count p a + count p b.
Proof. unfold count. by rewrite List.filter_app, length_app. Qed.

(** *** The store adapter and the validation *)

(** The store adapter leaves the cache alone and announces itself once. *)
Lemma saveUserToDb_frame env userData w :
  let w' := snd (__saveUserToDb env userData w) in
  __mapAccessToken2UserData w' = __mapAccessToken2UserData w
  /\ dbc w' = dbc w
  /\ provider_calls (trace w') = provider_calls (trace w)
  /\ store_calls (trace w') = store_calls (trace w) + 1.
Proof.
  destruct (__saveUserToDb env userData w) as [r w'] eqn:Hrun.
  unfold provider_calls, store_calls.
  run; rewrite ?count_app; unfold count; simpl; repeat split; auto; lia.
Qed.

(** Only an object passes the validation, and then it owns the three keys
    and does not shadow the method. *)
Lemma valid_payload_inv payload :
  __isValidFacebookUserData payload = Ok true ->
  exists props,
    payload = JObj props
    /\ own_property props "hasOwnProperty" = None
    /\ is_Some (own_property props "id")
    /\ is_Some (own_property props "name")
    /\ is_Some (own_property props "email").
Proof.
  unfold __isValidFacebookUserData. intros Hvalid.
  destruct payload; simpl in Hvalid; try discriminate.
  exists props. destruct (own_property props "hasOwnProperty"); [discriminate |].
  repeat case_bool_decide; try discriminate. auto.
Qed.

Lemma valid_of_present props :
  own_property props "hasOwnProperty" = None ->
  is_Some (own_property props "id") ->
  is_Some (own_property props "name") ->
  is_Some (own_property props "email") ->
  __isValidFacebookUserData (JObj props) = Ok true.
Proof.
  intros Hmethod Hid Hname Hemail. unfold __isValidFacebookUserData, hasOwnProperty.
  rewrite Hmethod. by rewrite !bool_decide_eq_true_2.
Qed.

(** *** The write of line 67 *)

Lemma assign_lookup accessToken userData (m : gmap string InternalUserData) :
  accessToken <> "__proto__" -> assign accessToken userData m !! accessToken = Some userData.
Proof.
  intros Hne. unfold assign.
  destruct (String.eqb_spec accessToken "__proto__"); [done |]. apply lookup_insert_eq.
Qed.

Lemma assign_lookup_ne accessToken userData (m : gmap string InternalUserData) other :
  other <> accessToken -> assign accessToken userData m !! other = m !! other.
Proof.
  intros Hne. unfold assign.
  destruct (_ && _); [done |]. by apply lookup_insert_ne.
Qed.


Lemma assign_hit accessToken userData (m : gmap string InternalUserData) :
  m !! accessToken = Some userData -> assign accessToken userData m = m.
Proof.
  intros Hin. unfold assign. rewrite Hin.
  rewrite bool_decide_eq_true_2 by eauto. rewrite andb_false_r. by apply insert_id.
Qed.


(** *** The resolver, for one environment and one token *)

Section Resolver.

Context (env : environment) (accessToken : string).

(** Once [hasOwnProperty] is a key, line 47 throws and nothing else happens. *)
Lemma resolver_shadowed w :
  ~ unshadowed w ->
  exists thrown, __getUserDataFromAccessToken env accessToken w = (Throw thrown, w).
Proof.
  unfold unshadowed, __getUserDataFromAccessToken. intros Hshadow.
  destruct (__mapAccessToken2UserData w !! "hasOwnProperty"); [eauto | done].
Qed.

Lemma cache_hit w cached :
  unshadowed w ->
  __mapAccessToken2UserData w !! accessToken = Some cached ->
  __getUserDataFromAccessToken env accessToken w = (Ok (Some cached), w).
Proof.
  unfold unshadowed. intros Hmethod H. unfold __getUserDataFromAccessToken.
  by rewrite Hmethod, H.
Qed.

(** The promise of the resolver settles every failure itself: the resolver
    yields a record or [null] whenever line 47 does not throw. *)
Lemma resolver_never_rejects w :
  unshadowed w ->
  exists r, fst (__getUserDataFromAccessToken env accessToken w) = Ok r.
Proof.
  unfold unshadowed. intros Hmethod.
  destruct (__getUserDataFromAccessToken env accessToken w) as [r w'] eqn:Hrun.
  run; eauto.
Qed.

Lemma resolver_ok_unshadowed w r :
  fst (__getUserDataFromAccessToken env accessToken w) = Ok r -> unshadowed w.
Proof.
  unfold unshadowed, __getUserDataFromAccessToken.
  by destruct (__mapAccessToken2UserData w !! "hasOwnProperty").
Qed.

(** The resolver touches the cache and the trace only. *)
Lemma resolver_frame w :
  let w' := snd (__getUserDataFromAccessToken env accessToken w) in
  dbc w' = dbc w /\ req w' = req w /\ res w' = res w.
Proof.
  destruct (__getUserDataFromAccessToken env accessToken w) as [r w'] eqn:Hrun.
  run; auto.
Qed.

(** What a run of the resolver does to the cache: one write of the record
    it yields under the token, nothing otherwise. *)
Lemma resolver_cache w :
  let '(r, w') := __getUserDataFromAccessToken env accessToken w in
  match r with
  | Ok (Some userData) =>
      __mapAccessToken2UserData w' = assign accessToken userData (__mapAccessToken2UserData w)
  | _ => __mapAccessToken2UserData w' = __mapAccessToken2UserData w
  end.
Proof.
  destruct (__getUserDataFromAccessToken env accessToken w) as [r w'] eqn:Hrun.
  run; auto.
  symmetry. by apply assign_hit.
Qed.

(** A miss goes to the provider exactly once. *)
Lemma miss_calls_provider_once w :
  unshadowed w ->
  __mapAccessToken2UserData w !! accessToken = None ->
  provider_calls (trace (snd (__getUserDataFromAccessToken env accessToken w)))
  = provider_calls (trace w) + 1.
Proof.
  unfold unshadowed. intros Hmethod Hmiss.
  destruct (__getUserDataFromAccessToken env accessToken w) as [r w'] eqn:Hrun.
  unfold provider_calls. run; rewrite ?count_app; unfold count; simpl; lia.
Qed.

(** The resolver on a miss with a valid payload: whatever the store adapter
    settles with is what the resolver caches and returns. *)
Lemma resolver_of_valid w props :
  unshadowed w ->
  __mapAccessToken2UserData w !! accessToken = None ->
  graph_api env accessToken = HttpResolves (Json (JObj props)) ->
  __isValidFacebookUserData (JObj props) = Ok true ->
  __getUserDataFromAccessToken env accessToken w =
  match __saveUserToDb env (internal_of props) (log (HttpGet accessToken) w) with
  | (Ok (Some userData), w') =>
      (Ok (Some userData),
       set_cache (assign accessToken userData (__mapAccessToken2UserData w')) w')
  | (Ok None, w') => (Ok None, w')
  | (Throw err, w') => (Ok None, log (ConsoleError err) w')
  end.
Proof.
  unfold unshadowed. intros Hmethod Hmiss Hreply Hvalid.
  unfold __getUserDataFromAccessToken, __getUserDataFromFacebook.
  rewrite Hmethod, Hmiss. unfold catch_, then_, settle, emit, effect.
  rewrite Hreply. unfold resolve at 1. cbn [JSON_parse].
  rewrite Hvalid. cbn [__formatUserDataAsInternal get_property].
  fold (internal_of props).
  destruct (__saveUserToDb env (internal_of props) (log (HttpGet accessToken) w))
    as [[[userData |] | err] w']; reflexivity.
Qed.

(** A record comes out of a miss only through a full success. *)
Lemma resolver_success_inv w w' userData :
  __mapAccessToken2UserData w !! accessToken = None ->
  __getUserDataFromAccessToken env accessToken w = (Ok (Some userData), w') ->
  fully_successful env accessToken userData /\ dbc w <> None.
Proof.
  intros Hmiss Hrun.
  assert (Hmethod : unshadowed w) by (eapply resolver_ok_unshadowed; by rewrite Hrun).
  assert (Hinvalid :
            forall payload,
              graph_api env accessToken = HttpResolves (Json payload) ->
              __isValidFacebookUserData payload = Ok true).
  { intros payload Hreply. unfold __getUserDataFromAccessToken, __getUserDataFromFacebook in Hrun.
    rewrite Hmethod, Hmiss in Hrun. unfold catch_, then_, settle, emit, effect in Hrun.
    rewrite Hreply in Hrun. unfold resolve in Hrun. simpl in Hrun.
    destruct (__isValidFacebookUserData payload) as [[|] |]; [done | |];
      simpl in Hrun; discriminate. }
  destruct (graph_api env accessToken) as [e | [text | payload]] eqn:Hreply.
  1, 2: unfold __getUserDataFromAccessToken, __getUserDataFromFacebook in Hrun;
    rewrite Hmethod, Hmiss in Hrun; unfold catch_, then_, settle, emit, effect in Hrun;
    rewrite Hreply in Hrun; unfold resolve, reject in Hrun; simpl in Hrun; discriminate.
  pose proof (Hinvalid payload eq_refl) as Hvalid.
  destruct (valid_payload_inv _ Hvalid) as (props & -> & _).
  rewrite (resolver_of_valid w props Hmethod Hmiss Hreply Hvalid) in Hrun.
  unfold __saveUserToDb, __getUserFromDb, __addUserToDb, catch_, then_, emit, effect,
    resolve, reject in Hrun.
  simpl in Hrun.
  destruct (dbc w) as [connection |] eqn:Hdbc; [| simpl in Hrun; discriminate].
  split; [| discriminate]. exists props. split; [done | split; [done |]].
  cbn [internal_of facebookId email fullName].
  destruct (select_site_user env _)
    as [e | [row |]] eqn:Hselect; try (simpl in Hrun; discriminate).
  destruct (truthy (id row)) eqn:Htruthy; simpl in Hrun.
  - left. by simplify_eq.
  - right. exists row. rewrite Hdbc in Hrun.
    destruct (insert_site_user env _ _ _) as [e | [generated |]] eqn:Hinsert;
      try (simpl in Hrun; discriminate).
    exists generated. simpl in Hrun. by simplify_eq.
Qed.

End Resolver.

(** ** C1: memoization *)

(** Memoization as far as it holds: while no token named [hasOwnProperty]
    is cached, a token that is a key resolves to the cached record with the
    world untouched; a token that is not costs exactly one provider call
    and, for a valid payload, exactly one call of the store adapter; and
    after a success of a token other than [__proto__] and [hasOwnProperty]
    the same token resolves again to the same record with the world
    untouched. *)
Lemma memoization_of_ordinary_tokens env accessToken w :
  unshadowed w ->
  (forall cached,
      __mapAccessToken2UserData w !! accessToken = Some cached ->
      __getUserDataFromAccessToken env accessToken w = (Ok (Some cached), w))
  /\ (__mapAccessToken2UserData w !! accessToken = None ->
      forall r w',
        __getUserDataFromAccessToken env accessToken w = (r, w') ->
        provider_calls (trace w') = provider_calls (trace w) + 1
        /\ (forall payload,
               graph_api env accessToken = HttpResolves (Json payload) ->
               __isValidFacebookUserData payload = Ok true ->
               store_calls (trace w') = store_calls (trace w) + 1)
        /\ (forall userData,
               ordinary accessToken ->
               r = Ok (Some userData) ->
               forall env',
                 __getUserDataFromAccessToken env' accessToken w'
                 = (Ok (Some userData), w'))).
Proof.
  intros Hmethod.
  split; [intros cached Hin; exact (cache_hit env accessToken w cached Hmethod Hin) |].
  intros Hmiss r w' Hrun. split; [| split].
  - pose proof (miss_calls_provider_once env accessToken w Hmethod Hmiss) as Hcalls.
    by rewrite Hrun in Hcalls.
  - intros payload Hreply Hvalid.
    destruct (valid_payload_inv _ Hvalid) as (props & -> & _).
    rewrite (resolver_of_valid env accessToken w props Hmethod Hmiss Hreply Hvalid) in Hrun.
    pose proof (saveUserToDb_frame env (internal_of props) (log (HttpGet accessToken) w))
      as (_ & _ & _ & Hstore).
    destruct (__saveUserToDb env (internal_of props) (log (HttpGet accessToken) w))
      as [[[stored |] | err] w1]; simpl in Hstore; injection Hrun as <- <-; simpl.
    all: unfold store_calls in *; rewrite ?count_app in *; unfold count in *;
      simpl in *; lia.
  - intros userData [Hproto Hname] -> env'.
    pose proof (resolver_cache env accessToken w) as Hc.
    rewrite Hrun in Hc. apply cache_hit.
    + unfold unshadowed. rewrite Hc, assign_lookup_ne by done. exact Hmethod.
    + rewrite Hc. by apply assign_lookup.
Qed.

(** C1. Two tokens defeat the memoization.  The token [__proto__] resolves
    to a record, yet is no key of the cache afterwards: resolving it again
    calls the provider and the store adapter a second time.  The token
    [hasOwnProperty] resolves to a record and is cached, and from then on
    the resolver throws instead of returning it. *)
Theorem special_tokens_defeat_memoization :
  (let '(r1, w1) := __getUserDataFromAccessToken Special.env "__proto__" Scenario.configured in
   let '(r2, w2) := __getUserDataFromAccessToken Special.env "__proto__" w1 in
   r1 = Ok (Some Scenario.ann_record)
   /\ __mapAccessToken2UserData w1 !! "__proto__" = None
   /\ r2 = Ok (Some Scenario.ann_record)
   /\ provider_calls (trace w2) = 2
   /\ store_calls (trace w2) = 2)
  /\ (let '(r1, w1) :=
        __getUserDataFromAccessToken Special.env "hasOwnProperty" Scenario.configured in
      let '(r2, w2) := __getUserDataFromAccessToken Special.env "hasOwnProperty" w1 in
      r1 = Ok (Some Scenario.ann_record)
      /\ __mapAccessToken2UserData w1 !! "hasOwnProperty" = Some Scenario.ann_record
      /\ r2 = Throw (TypeError "__mapAccessToken2UserData.hasOwnProperty is not a function")
      /\ w2 = w1).
Proof. vm_compute. done. Qed.

(** ** C3: invalid payloads *)

(** C3. When the provider is asked (the token is not cached, and the cache
    can be asked) and its text does not parse, or parses to a value that
    lacks [id], [name] or [email], the resolver yields [null], the store
    adapter is not called and no query is sent, and the cache is the one it
    was. *)
Theorem invalid_payload_rejected env accessToken w text :
  unshadowed w ->
  __mapAccessToken2UserData w !! accessToken = None ->
  graph_api env accessToken = HttpResolves text ->
  ((exists e, JSON_parse text = Throw e)
   \/ (exists payload, text = Json payload
        /\ (lacks payload "id" \/ lacks payload "name" \/ lacks payload "email"))) ->
  let '(r, w') := __getUserDataFromAccessToken env accessToken w in
  r = Ok None
  /\ store_calls (trace w') = store_calls (trace w)
  /\ selects (trace w') = selects (trace w)
  /\ inserts (trace w') = inserts (trace w)
  /\ __mapAccessToken2UserData w' = __mapAccessToken2UserData w.
Proof.
  unfold unshadowed. intros Hmethod Hmiss Hreply Hbad.
  destruct (__getUserDataFromAccessToken env accessToken w) as [r w'] eqn:Hrun.
  unfold store_calls, selects, inserts, lacks in *.
  unfold __getUserDataFromAccessToken, __getUserDataFromFacebook in Hrun.
  rewrite Hmethod, Hmiss in Hrun. unfold catch_, then_, settle, emit, effect in Hrun.
  rewrite Hreply in Hrun.
  destruct Hbad as [[e He] | (payload & -> & Hlacks)].
  - unfold resolve in Hrun. simpl in Hrun. rewrite He in Hrun. simplify_eq/=.
    rewrite ?count_app; unfold count; simpl; repeat split; auto; lia.
  - assert (Hinvalid : __isValidFacebookUserData payload <> Ok true).
    { unfold __isValidFacebookUserData. intros Hvalid.
      repeat case_match; simplify_eq; destruct Hlacks as [Hl | [Hl | Hl]]; by apply Hl. }
    unfold resolve in Hrun. simpl in Hrun.
    destruct (__isValidFacebookUserData payload) as [[|] |] eqn:Hvalid; [done | |].
    all: simplify_eq/=.
    all: rewrite ?count_app; unfold count; simpl; repeat split; auto; lia.
Qed.

Lemma invalid_payload_rejected_witness :
  let '(r, w') := __getUserDataFromAccessToken Scenario.env "T2" Scenario.configured in
  r = Ok None
  /\ store_calls (trace w') = store_calls (trace Scenario.configured)
  /\ selects (trace w') = selects (trace Scenario.configured)
  /\ inserts (trace w') = inserts (trace Scenario.configured)
  /\ __mapAccessToken2UserData w' = __mapAccessToken2UserData Scenario.configured.
Proof.
  apply (invalid_payload_rejected Scenario.env "T2" Scenario.configured (Json Scenario.bob)).
  - reflexivity.
  - reflexivity.
  - reflexivity.
  - right. exists Scenario.bob. split; [reflexivity |].
    right. right. unfold lacks. vm_compute. discriminate.
Defined.

(** ** C4: the store adapter *)

(** The creating path of the adapter, start to end. *)
Lemma saveUserToDb_creates env userData w connection row generated :
  dbc w = Some connection ->
  select_site_user env (facebookId userData) = DbResolves (Some row) ->
  truthy (id row) = false ->
  insert_site_user env (facebookId userData) (email userData) (fullName userData)
  = DbResolves (Some generated) ->
  let '(r, w') := __saveUserToDb env userData w in
  r = Ok (Some (set_id userData (id_value generated)))
  /\ __mapAccessToken2UserData w' = __mapAccessToken2UserData w
  /\ trace w' =
     trace w ++ [StoreCall userData; SqlSelect (facebookId userData);
                 SqlInsert (facebookId userData) (email userData) (fullName userData)].
Proof.
  intros Hdbc Hselect Hfalsy Hinsert.
  destruct (__saveUserToDb env userData w) as [r w'] eqn:Hrun.
  unfold __saveUserToDb, __getUserFromDb, then_, emit, effect in Hrun.
  simpl in Hrun. rewrite Hdbc, Hselect in Hrun. unfold resolve in Hrun.
  rewrite Hfalsy in Hrun. simpl in Hrun.
  unfold __addUserToDb, catch_, then_, emit, effect in Hrun.
  simpl in Hrun. rewrite Hdbc, Hinsert in Hrun.
  injection Hrun as <- <-. simpl. by rewrite <- !app_assoc.
Qed.

(** C4. With a connection configured and a lookup that resolves with a
    row.  A record of the store carries the [id] the store gave it, which is
    truthy: when the lookup returns one, the adapter sends no insert and
    returns that row as it is, whatever the fetched profile says.  When the
    lookup returns the row-less answer of an unknown [facebookId] (no truthy
    [id]), the adapter sends exactly one insert carrying the supplied
    [facebookId], [email] and [fullName], and returns the supplied record
    with [id] set to the generated one, or, when the insert is rejected,
    logs the error and returns [null]. *)
Theorem getOrCreate_postcondition env userData w connection row :
  dbc w = Some connection ->
  select_site_user env (facebookId userData) = DbResolves (Some row) ->
  let '(r, w') := __saveUserToDb env userData w in
  let lookup := [StoreCall userData; SqlSelect (facebookId userData)] in
  let insert := SqlInsert (facebookId userData) (email userData) (fullName userData) in
  (truthy (id row) = true ->
     r = Ok (Some row) /\ trace w' = trace w ++ lookup)
  /\ (truthy (id row) = false ->
      (forall generated,
          insert_site_user env (facebookId userData) (email userData) (fullName userData)
          = DbResolves (Some generated) ->
          r = Ok (Some (mkUser (id_value generated) (facebookId userData)
                               (email userData) (fullName userData)))
          /\ trace w' = trace w ++ lookup ++ [insert])
      /\ (forall err,
             insert_site_user env (facebookId userData) (email userData) (fullName userData)
             = DbRejects err ->
             r = Ok None
             /\ trace w' = trace w ++ lookup ++ [insert; ConsoleError err])).
Proof.
  intros Hdbc Hselect.
  destruct (__saveUserToDb env userData w) as [r w'] eqn:Hrun.
  unfold __saveUserToDb, __getUserFromDb, then_, emit, effect in Hrun.
  simpl in Hrun. rewrite Hdbc, Hselect in Hrun. unfold resolve in Hrun.
  split.
  - intros Htruthy. rewrite Htruthy in Hrun. simpl in Hrun.
    injection Hrun as <- <-. simpl. by rewrite <- app_assoc.
  - intros Hfalsy. rewrite Hfalsy in Hrun. simpl in Hrun.
    unfold __addUserToDb, catch_, then_, emit, effect in Hrun.
    simpl in Hrun. rewrite Hdbc in Hrun.
    split.
    + intros generated Hinsert. rewrite Hinsert in Hrun.
      injection Hrun as <- <-. simpl. by rewrite <- !app_assoc.
    + intros err Hinsert. rewrite Hinsert in Hrun.
      injection Hrun as <- <-. simpl. by rewrite <- !app_assoc.
Qed.

Lemma getOrCreate_postcondition_witness :
  (let '(r, w') := __saveUserToDb Scenario.env Reinsert.fetched Scenario.configured in
   r = Ok (Some Scenario.ann_record) /\ inserts (trace w') = 1)
  /\ (let '(r, w') := __saveUserToDb Reinsert.env Reinsert.fetched Scenario.configured in
      r = Ok (Some Reinsert.stored) /\ inserts (trace w') = 0).
Proof.
  split.
  - pose proof (getOrCreate_postcondition Scenario.env Reinsert.fetched Scenario.configured
                  (mkConnection "site") Scenario.no_row eq_refl eq_refl) as H.
    destruct (__saveUserToDb Scenario.env Reinsert.fetched Scenario.configured) as [r w'].
    destruct H as [_ H]. destruct (H eq_refl) as [Hinsert _].
    destruct (Hinsert (IdNumber 7) eq_refl) as [-> ->]. split; reflexivity.
  - pose proof (getOrCreate_postcondition Reinsert.env Reinsert.fetched Scenario.configured
                  (mkConnection "site") Reinsert.stored eq_refl eq_refl) as H.
    destruct (__saveUserToDb Reinsert.env Reinsert.fetched Scenario.configured) as [r w'].
    destruct H as [H _]. destruct (H eq_refl) as [-> ->]. split; reflexivity.
Defined.

(** ** C5: what the cache holds *)

(** What one run of the middleware does to the cache. *)
Lemma middleware_cache env w :
  __mapAccessToken2UserData (snd (facebookAuthMiddleware env w)) =
  if __isLogoutRoute (url (req w)) then
    delete (property_key (extract_token (req w))) (__mapAccessToken2UserData w)
  else
    match extract_token (req w) with
    | Some accessToken =>
        __mapAccessToken2UserData (snd (__getUserDataFromAccessToken env accessToken w))
    | None => __mapAccessToken2UserData w
    end.
Proof.
  unfold facebookAuthMiddleware.
  destruct (__isLogoutRoute (url (req w))).
  - unfold then_, effect, session_destroy, emit. simpl.
    destruct (session (req w)); reflexivity.
  - destruct (extract_token (req w)) as [accessToken |]; [| reflexivity].
    destruct (__getUserDataFromAccessToken env accessToken w) as [[[u |] | e] w1];
      try reflexivity.
    unfold catch_, then_, effect, remember_token, save_callback, emit, resolve. simpl.
    destruct (session (req w1)); [destruct (session_save env) |]; reflexivity.
Qed.


(** The record a resolution yields is one the cache held already or one a
    full success produced. *)
Lemma resolver_yields env accessToken w w' userData :
  __getUserDataFromAccessToken env accessToken w = (Ok (Some userData), w') ->
  __mapAccessToken2UserData w !! accessToken = Some userData
  \/ (__mapAccessToken2UserData w !! accessToken = None
      /\ fully_successful env accessToken userData).
Proof.
  intros Hrun.
  assert (Hmethod : unshadowed w) by (eapply resolver_ok_unshadowed; by rewrite Hrun).
  destruct (__mapAccessToken2UserData w !! accessToken) as [cached |] eqn:Hlookup.
  - left. rewrite (cache_hit env accessToken w cached Hmethod Hlookup) in Hrun.
    by injection Hrun as -> _.
  - right. split; [done |].
    by destruct (resolver_success_inv env accessToken w w' userData Hlookup Hrun).
Qed.






(** ** C6 and C7: the two ways out of an authenticated route *)

Lemma outcome_app a b : outcome (a ++ b) = outcome a ++ outcome b.
Proof. apply List.filter_app. Qed.

(** The resolver neither answers the client nor calls [next]. *)
Lemma resolver_outcome env accessToken w :
  outcome (trace (snd (__getUserDataFromAccessToken env accessToken w))) = outcome (trace w).
Proof.
  destruct (__getUserDataFromAccessToken env accessToken w) as [r w'] eqn:Hrun.
  run; rewrite ?outcome_app; simpl; by rewrite ?app_nil_r.
Qed.

Lemma delete_session_user_spec r :
  session (delete_session_user r) ≫= user = None
  /\ url (delete_session_user r) = url r
  /\ body (delete_session_user r) = body r
  /\ (session r = None <-> session (delete_session_user r) = None).
Proof.
  unfold delete_session_user.
  destruct r as [u b [[[su |]] |]]; simpl; repeat split; auto; discriminate.
Qed.

(** A token whose resolution yields [null]: the error is logged, the
    session's user deleted, the client told to log in. *)
Lemma login_required_after_null env w accessToken :
  __isLogoutRoute (url (req w)) = false ->
  extract_token (req w) = Some accessToken ->
  fst (__getUserDataFromAccessToken env accessToken w) = Ok None ->
  let '(r, w') := facebookAuthMiddleware env w in
  r = Ok tt
  /\ req w' = delete_session_user (req w)
  /\ outcome (trace w') = outcome (trace w) ++ [ResSend LOGIN_REQUIRED; ResEnd]
  /\ res w' = res w.
Proof.
  intros Hroute Htoken Hnull.
  destruct (facebookAuthMiddleware env w) as [r w'] eqn:Hrun.
  unfold facebookAuthMiddleware in Hrun. rewrite Hroute, Htoken in Hrun.
  unfold catch_, then_ at 1 in Hrun.
  pose proof (resolver_outcome env accessToken w) as Hquiet.
  pose proof (resolver_frame env accessToken w) as (_ & Hreq & Hres).
  destruct (__getUserDataFromAccessToken env accessToken w) as [r1 w1].
  simpl in Hnull, Hquiet, Hreq, Hres. subst r1.
  unfold reject, send_login_required, then_, effect, emit in Hrun. simpl in Hrun.
  injection Hrun as <- <-. simpl.
  rewrite <- !app_assoc, outcome_app, Hquiet, Hreq, Hres. simpl. auto.
Qed.

(** C6. Off the logout route, when the request carries no token, or carries
    one whose resolution yields [null], the middleware returns normally,
    [req.session.user] is deleted, the client is sent exactly
    [{error: 'LOGIN_REQUIRED'}] and the response is ended, [next] is not
    called, and nothing is written to [res.locals]. *)
Theorem failure_path env w :
  __isLogoutRoute (url (req w)) = false ->
  (extract_token (req w) = None
   \/ exists accessToken,
       extract_token (req w) = Some accessToken
       /\ fst (__getUserDataFromAccessToken env accessToken w) = Ok None) ->
  let '(r, w') := facebookAuthMiddleware env w in
  r = Ok tt
  /\ req w' = delete_session_user (req w)
  /\ session (req w') ≫= user = None
  /\ outcome (trace w') = outcome (trace w) ++ [ResSend LOGIN_REQUIRED; ResEnd]
  /\ res w' = res w.
Proof.
  intros Hroute [Hnone | (accessToken & Htoken & Hnull)].
  - destruct (facebookAuthMiddleware env w) as [r w'] eqn:Hrun.
    unfold facebookAuthMiddleware in Hrun. rewrite Hroute, Hnone in Hrun.
    unfold send_login_required, then_, effect, emit in Hrun. simpl in Hrun.
    injection Hrun as <- <-. simpl.
    rewrite <- app_assoc, outcome_app. simpl.
    repeat split; auto. apply delete_session_user_spec.
  - pose proof (login_required_after_null env w accessToken Hroute Htoken Hnull) as H.
    destruct (facebookAuthMiddleware env w) as [r w'].
    destruct H as (Hr & Hreq & Hout & Hres).
    repeat split; auto. rewrite Hreq. apply delete_session_user_spec.
Qed.

Lemma failure_path_witness :
  let w := set_req (Scenario.login "T2") Scenario.configured in
  let '(r, w') := facebookAuthMiddleware Scenario.env w in
  r = Ok tt
  /\ req w' = delete_session_user (req w)
  /\ session (req w') ≫= user = None
  /\ outcome (trace w') = outcome (trace w) ++ [ResSend LOGIN_REQUIRED; ResEnd]
  /\ res w' = res w.
Proof.
  apply (failure_path Scenario.env (set_req (Scenario.login "T2") Scenario.configured)).
  - reflexivity.
  - right. exists "T2". split; reflexivity.
Defined.

(** C7. Off the logout route, when the request carries a token whose
    resolution yields a record, the middleware returns normally with that
    record's [id], [facebookId], [email] and [fullName] under
    [res.locals.metisoft.user]; a session that exists gets the token and is
    saved, an error of the save being logged (after [next]) and nothing
    more; [next] is called once and nothing is sent to the client. *)
Theorem success_path env w accessToken userData :
  __isLogoutRoute (url (req w)) = false ->
  extract_token (req w) = Some accessToken ->
  fst (__getUserDataFromAccessToken env accessToken w) = Ok (Some userData) ->
  let '(r, w') := facebookAuthMiddleware env w in
  r = Ok tt
  /\ locals_metisoft_user (res w') = Some userData
  /\ session (req w') =
     match session (req w) with
     | Some _ => Some (mkSession (Some (mkSessionUser (Some accessToken))))
     | None => None
     end
  /\ trace w' =
     trace (snd (__getUserDataFromAccessToken env accessToken w)) ++
     match session (req w), session_save env with
     | Some _, Some error => [SessionSave; Next; ConsoleError error]
     | Some _, None => [SessionSave; Next]
     | None, _ => [Next]
     end
  /\ outcome (trace w') = outcome (trace w) ++ [Next].
Proof.
  intros Hroute Htoken Hsome.
  destruct (facebookAuthMiddleware env w) as [r w'] eqn:Hrun.
  unfold facebookAuthMiddleware in Hrun. rewrite Hroute, Htoken in Hrun.
  unfold catch_, then_ at 1 in Hrun.
  pose proof (resolver_outcome env accessToken w) as Hquiet.
  pose proof (resolver_frame env accessToken w) as (_ & Hreq & _).
  destruct (__getUserDataFromAccessToken env accessToken w) as [r1 w1].
  simpl in Hsome, Hquiet, Hreq. subst r1.
  unfold remember_token, save_callback, then_, effect, emit, resolve in Hrun.
  simpl in Hrun. rewrite Hreq in Hrun.
  destruct (session (req w)) as [s |] eqn:Hsession;
    [destruct (session_save env) as [error |] |];
    simpl in Hrun; injection Hrun as <- <-; simpl;
    rewrite <- ?app_assoc, ?outcome_app, ?Hquiet, ?Hreq, ?Hsession; simpl; auto.
Qed.

Lemma success_path_witness :
  let w := set_req (Scenario.login "T1") Scenario.configured in
  let '(r, w') := facebookAuthMiddleware Scenario.env w in
  r = Ok tt
  /\ locals_metisoft_user (res w') = Some Scenario.ann_record
  /\ session (req w') = Some (mkSession (Some (mkSessionUser (Some "T1"))))
  /\ outcome (trace w') = [Next].
Proof.
  cbv zeta.
  pose proof (success_path Scenario.env (set_req (Scenario.login "T1") Scenario.configured)
                "T1" Scenario.ann_record eq_refl eq_refl eq_refl) as H.
  destruct (facebookAuthMiddleware Scenario.env _) as [r w'].
  destruct H as (Hr & Hres & Hsession & _ & Hout).
  split; [exact Hr | split; [exact Hres | split; [exact Hsession | exact Hout]]].
Defined.

(** ** C2 and C8: the logout route *)

(** While the cache can be asked, with a session on the request or off the
    logout route, nothing reaches the caller. *)
Lemma middleware_returns env w :
  unshadowed w ->
  __isLogoutRoute (url (req w)) = false \/ session (req w) <> None ->
  fst (facebookAuthMiddleware env w) = Ok tt.
Proof.
  intros Hmethod Hok. unfold facebookAuthMiddleware.
  destruct (__isLogoutRoute (url (req w))) eqn:Hroute.
  - destruct Hok as [? | Hsession]; [done |].
    unfold then_, effect, session_destroy, emit. simpl.
    by destruct (session (req w)).
  - destruct (extract_token (req w)) as [accessToken |]; [| reflexivity].
    destruct (resolver_never_rejects env accessToken w Hmethod) as [r Hr].
    destruct (__getUserDataFromAccessToken env accessToken w) as [r1 w1].
    simpl in Hr. subst r1. destruct r as [u |]; [| reflexivity].
    unfold catch_, then_, effect, remember_token, save_callback, emit, resolve. simpl.
    destruct (session (req w1)); [destruct (session_save env) |]; reflexivity.
Qed.

(** Logout with a session: the token's entry is gone, the session is
    destroyed, [next] is called, [res.locals] is untouched, and the token's
    next resolution goes to the provider again (the cache being one that can
    be asked). *)
Lemma logout_with_session_evicts env w s :
  __isLogoutRoute (url (req w)) = true ->
  session (req w) = Some s ->
  let '(r, w') := facebookAuthMiddleware env w in
  r = Ok tt
  /\ __mapAccessToken2UserData w' =
     delete (property_key (extract_token (req w))) (__mapAccessToken2UserData w)
  /\ session (req w') = None
  /\ trace w' = trace w ++ [SessionDestroy; Next]
  /\ res w' = res w
  /\ (forall accessToken,
         extract_token (req w) = Some accessToken ->
         __mapAccessToken2UserData w' !! accessToken = None
         /\ (unshadowed w ->
             forall env',
               provider_calls (trace (snd (__getUserDataFromAccessToken env' accessToken w')))
               = provider_calls (trace w') + 1)).
Proof.
  intros Hroute Hsession.
  destruct (facebookAuthMiddleware env w) as [r w'] eqn:Hrun.
  unfold facebookAuthMiddleware in Hrun. rewrite Hroute in Hrun.
  unfold then_, effect, session_destroy, emit in Hrun. simpl in Hrun.
  rewrite Hsession in Hrun. injection Hrun as <- <-. simpl.
  rewrite <- app_assoc. repeat split; auto.
  - rewrite H. simpl. apply lookup_delete_eq.
  - intros Hmethod env'. rewrite miss_calls_provider_once.
    + simpl. by rewrite <- app_assoc.
    + unfold unshadowed in *. simpl. apply lookup_delete_None. by right.
    + simpl. rewrite H. apply lookup_delete_eq.
Qed.

(** C2. On the logout route, a request without a session makes
    [req.session.destroy()] throw: the [TypeError] reaches the caller of the
    middleware, and [next] is never called. *)
Theorem logout_without_session_throws :
  let '(r, w') := serve Scenario.env Logout.bare Scenario.configured in
  r = Throw (TypeError "Cannot read property 'destroy' of undefined")
  /\ trace w' = [].
Proof. vm_compute. done. Qed.

(** C8. ["T1"] is cached; a logout request that carries it in its body and
    has no session does evict it, but then throws at
    [req.session.destroy()]: the request does not proceed downstream. *)
Theorem logout_body_token_without_session :
  let '(r, w') := serve Scenario.env (Logout.with_body_token "T1") Logout.logged_in in
  __mapAccessToken2UserData Logout.logged_in !! "T1" = Some Scenario.ann_record
  /\ r = Throw (TypeError "Cannot read property 'destroy' of undefined")
  /\ __mapAccessToken2UserData w' !! "T1" = None
  /\ trace w' = trace Logout.logged_in.
Proof. vm_compute. done. Qed.

(** ** C9: validation looks at presence only *)

(** Presence is all that counts, for a payload that leaves the method
    alone: an object that owns [id], [name] and [email] and no
    [hasOwnProperty] is valid whatever the three values are.  It is
    translated value for value; on a miss of a cache that can be asked, the
    record the store adapter settles with is returned and written under the
    token; and when the store has no row for it and the insert succeeds,
    that record is the translation under the generated [id], the three
    values having gone into the insert as they came. *)
Lemma validation_is_presence_only props :
  own_property props "hasOwnProperty" = None ->
  is_Some (own_property props "id") ->
  is_Some (own_property props "name") ->
  is_Some (own_property props "email") ->
  __isValidFacebookUserData (JObj props) = Ok true
  /\ __formatUserDataAsInternal (JObj props) = Ok (internal_of props)
  /\ (forall env accessToken w,
         unshadowed w ->
         accessToken <> "__proto__" ->
         __mapAccessToken2UserData w !! accessToken = None ->
         graph_api env accessToken = HttpResolves (Json (JObj props)) ->
         (forall userData,
             fst (__saveUserToDb env (internal_of props) (log (HttpGet accessToken) w))
             = Ok (Some userData) ->
             let '(r, w') := __getUserDataFromAccessToken env accessToken w in
             r = Ok (Some userData)
             /\ __mapAccessToken2UserData w' !! accessToken = Some userData)
         /\ (forall connection row generated,
                dbc w = Some connection ->
                select_site_user env (facebookId (internal_of props)) = DbResolves (Some row) ->
                truthy (id row) = false ->
                insert_site_user env (facebookId (internal_of props))
                                 (email (internal_of props)) (fullName (internal_of props))
                = DbResolves (Some generated) ->
                let '(r, w') := __getUserDataFromAccessToken env accessToken w in
                r = Ok (Some (set_id (internal_of props) (id_value generated)))
                /\ __mapAccessToken2UserData w' !! accessToken
                   = Some (set_id (internal_of props) (id_value generated))
                /\ trace w' =
                   trace w ++
                   [HttpGet accessToken;
                    StoreCall (internal_of props);
                    SqlSelect (facebookId (internal_of props));
                    SqlInsert (facebookId (internal_of props)) (email (internal_of props))
                              (fullName (internal_of props))])).
Proof.
  intros Hmethod Hid Hname Hemail.
  pose proof (valid_of_present props Hmethod Hid Hname Hemail) as Hvalid.
  split; [exact Hvalid | split; [reflexivity |]].
  intros env accessToken w Hcache Hproto Hmiss Hreply.
  rewrite (resolver_of_valid env accessToken w props Hcache Hmiss Hreply Hvalid).
  split.
  - intros userData Hstore.
    destruct (__saveUserToDb env (internal_of props) (log (HttpGet accessToken) w))
      as [r w']. simpl in Hstore. subst r. simpl.
    split; [reflexivity | by apply assign_lookup].
  - intros connection row generated Hdbc Hselect Hfalsy Hinsert.
    pose proof (saveUserToDb_creates env (internal_of props) (log (HttpGet accessToken) w)
                  connection row generated Hdbc Hselect Hfalsy Hinsert) as Hstore.
    destruct (__saveUserToDb env (internal_of props) (log (HttpGet accessToken) w))
      as [r w'].
    destruct Hstore as (-> & _ & Htrace). simpl.
    split; [reflexivity | split; [by apply assign_lookup |]].
    rewrite Htrace. simpl. by rewrite <- app_assoc.
Qed.

(** C9. Presence of the three keys does not suffice.  Ann's payload with one
    more key, named [hasOwnProperty], owns [id], [name] and [email]; the
    validation throws a [TypeError] on it, the resolver logs the error and
    yields [null], no call reaches the store adapter and nothing is
    cached. *)
Theorem shadowing_payload_is_rejected :
  is_Some (get_own Special.shadowing "id")
  /\ is_Some (get_own Special.shadowing "name")
  /\ is_Some (get_own Special.shadowing "email")
  /\ __isValidFacebookUserData Special.shadowing
     = Throw (TypeError "facebookUserData.hasOwnProperty is not a function")
  /\ (let '(r, w') :=
        __getUserDataFromAccessToken Special.shadowing_env "T1" Scenario.configured in
      r = Ok None
      /\ __mapAccessToken2UserData w' = ∅
      /\ trace w' =
         [HttpGet "T1";
          ConsoleError (TypeError "facebookUserData.hasOwnProperty is not a function")]).
Proof. vm_compute. repeat split; eauto. Qed.

(** ** C10: no connection configured *)

(** Only [config] writes [dbc]: serving requests leaves it as it is. *)
Lemma serve_keeps_dbc env r w : dbc (snd (serve env r w)) = dbc w.
Proof.
  unfold serve. destruct (facebookAuthMiddleware env _) as [r' w'] eqn:Hrun.
  run; auto.
Qed.

Lemma never_configured requests : forall w, dbc w = None -> dbc (serve_all requests w) = None.
Proof.
  induction requests as [| [env r] rest IH]; intros w Hdbc; [done |].
  simpl. apply IH. by rewrite serve_keeps_dbc.
Qed.

(** Without a connection nothing is ever cached: the cache stays empty, and
    so stays one that can be asked. *)
Lemma unconfigured_cache_stays_empty requests :
  forall w,
    dbc w = None -> __mapAccessToken2UserData w = ∅ ->
    __mapAccessToken2UserData (serve_all requests w) = ∅ /\ unshadowed (serve_all requests w).
Proof.
  induction requests as [| [env r] rest IH]; intros w Hdbc Hempty.
  - split; [done |]. unfold unshadowed. simpl. by rewrite Hempty.
  - simpl. apply IH; [by rewrite serve_keeps_dbc |].
    unfold serve. rewrite middleware_cache. simpl.
    destruct (__isLogoutRoute (url r)); [rewrite Hempty; apply delete_empty |].
    destruct (extract_token r) as [accessToken |]; [| done].
    set (w0 := set_res _ _).
    pose proof (resolver_cache env accessToken w0) as Hc.
    destruct (__getUserDataFromAccessToken env accessToken w0)
      as [[[userData |] | e] w1] eqn:Hrun; simpl in *; rewrite Hc; try done.
    assert (Hmiss : __mapAccessToken2UserData w0 !! accessToken = None)
      by (simpl; by rewrite Hempty).
    destruct (resolver_success_inv env accessToken w0 w1 userData Hmiss Hrun) as [_ Hsome].
    by simpl in Hsome.
Qed.

(** C10. Without a connection ([dbc] still [undefined]; the cache, which is
    then still empty, can be asked), an uncached token with a valid payload
    makes the store adapter throw a [TypeError] before any query is sent; the resolver logs it and yields [null], the cache
    staying as it was; and the middleware, off the logout route, returns
    normally having sent [{error: 'LOGIN_REQUIRED'}] and ended the response,
    without calling [next]. *)
Theorem unconfigured_fails_gracefully env accessToken w props :
  dbc w = None ->
  unshadowed w ->
  __mapAccessToken2UserData w !! accessToken = None ->
  graph_api env accessToken = HttpResolves (Json (JObj props)) ->
  __isValidFacebookUserData (JObj props) = Ok true ->
  (let '(r, w') := __getUserDataFromAccessToken env accessToken w in
   r = Ok None
   /\ __mapAccessToken2UserData w' = __mapAccessToken2UserData w
   /\ trace w' =
      trace w ++
      [HttpGet accessToken;
       StoreCall (internal_of props);
       ConsoleError (TypeError "Cannot read property 'getSquelSelect' of undefined")])
  /\ (__isLogoutRoute (url (req w)) = false ->
      extract_token (req w) = Some accessToken ->
      let '(r, w') := facebookAuthMiddleware env w in
      r = Ok tt
      /\ __mapAccessToken2UserData w' = __mapAccessToken2UserData w
      /\ outcome (trace w') = outcome (trace w) ++ [ResSend LOGIN_REQUIRED; ResEnd]).
Proof.
  intros Hdbc Hmethod Hmiss Hreply Hvalid.
  assert (Hresolve :
            __getUserDataFromAccessToken env accessToken w =
            (Ok None,
             log (ConsoleError (TypeError "Cannot read property 'getSquelSelect' of undefined"))
                 (log (StoreCall (internal_of props)) (log (HttpGet accessToken) w)))).
  { rewrite (resolver_of_valid env accessToken w props Hmethod Hmiss Hreply Hvalid).
    unfold __saveUserToDb, __getUserFromDb, then_, emit, effect. simpl.
    by rewrite Hdbc. }
  split.
  - rewrite Hresolve. simpl. by rewrite <- !app_assoc.
  - intros Hroute Htoken.
    assert (Hnull : fst (__getUserDataFromAccessToken env accessToken w) = Ok None)
      by by rewrite Hresolve.
    pose proof (login_required_after_null env w accessToken Hroute Htoken Hnull) as H.
    pose proof (middleware_cache env w) as Hcache.
    rewrite Hroute, Htoken, Hresolve in Hcache. simpl in Hcache.
    destruct (facebookAuthMiddleware env w) as [r w'].
    destruct H as (Hr & _ & Hout & _). auto.
Qed.

Lemma unconfigured_fails_gracefully_witness :
  let w := set_req (Scenario.login "T1") initial_world in
  let '(r, w') := facebookAuthMiddleware Scenario.env w in
  r = Ok tt
  /\ __mapAccessToken2UserData w' = ∅
  /\ outcome (trace w') = [ResSend LOGIN_REQUIRED; ResEnd].
Proof.
  destruct (unconfigured_fails_gracefully
              Scenario.env "T1" (set_req (Scenario.login "T1") initial_world)
              [("id", JStr "F1"); ("name", JStr "Ann"); ("email", JStr "a@x.com")]
              eq_refl eq_refl eq_refl eq_refl eq_refl) as [_ H].
  exact (H eq_refl eq_refl).
Defined.

(** ** The scenarios of the specification, run *)

(** ["T1"] uncached, the store empty, the next [id] 7. *)
Example scenario_T1_uncached :
  let '(r, w) := __getUserDataFromAccessToken Scenario.env "T1" Scenario.configured in
  r = Ok (Some Scenario.ann_record)
  /\ __mapAccessToken2UserData w !! "T1" = Some Scenario.ann_record
  /\ trace w = [HttpGet "T1";
                StoreCall (mkUser JUndefined (JStr "F1") (JStr "a@x.com") (JStr "Ann"));
                SqlSelect (JStr "F1");
                SqlInsert (JStr "F1") (JStr "a@x.com") (JStr "Ann")].
Proof. vm_compute. done. Qed.

(** The scenario of the specification: ["T1"] in the session. *)
Example scenario_logout_T1 :
  let '(r, w') := serve Scenario.env (Scenario.logout "T1") Logout.logged_in in
  r = Ok tt
  /\ __mapAccessToken2UserData w' !! "T1" = None
  /\ session (req w') = None
  /\ locals_metisoft_user (res w') = None
  /\ trace w' = trace Logout.logged_in ++ [SessionDestroy; Next].
Proof. vm_compute. done. Qed.

(** ** Beyond the claims: one request, start to end *)

(** Off the logout route the middleware is the resolver followed by one of
    the two ends, unless the call of the resolver throws. *)
Lemma middleware_off_logout env w :
  __isLogoutRoute (url (req w)) = false ->
  facebookAuthMiddleware env w =
  match extract_token (req w) with
  | None => (Ok tt, rejected w)
  | Some accessToken =>
      match __getUserDataFromAccessToken env accessToken w with
      | (Ok (Some userData), w1) => (Ok tt, accepted env accessToken userData w1)
      | (Ok None, w1) => (Ok tt, rejected (log (ConsoleError (Error "LOGIN_REQUIRED")) w1))
      | (Throw thrown, w1) => (Throw thrown, w1)
      end
  end.
Proof.
  intros Hroute. unfold facebookAuthMiddleware. rewrite Hroute.
  destruct (extract_token (req w)) as [accessToken |]; [| reflexivity].
  destruct (__getUserDataFromAccessToken env accessToken w) as [[[userData |] | err] w1];
    try reflexivity.
  unfold catch_, accepted, then_, effect, remember_token, save_callback, emit, resolve. simpl.
  destruct (session (req w1)); [destruct (session_save env) |]; reflexivity.
Qed.

Lemma rejected_spec w :
  __mapAccessToken2UserData (rejected w) = __mapAccessToken2UserData w
  /\ dbc (rejected w) = dbc w
  /\ res (rejected w) = res w
  /\ req (rejected w) = delete_session_user (req w)
  /\ trace (rejected w) = trace w ++ [ResSend LOGIN_REQUIRED; ResEnd].
Proof. unfold rejected. simpl. by rewrite <- app_assoc. Qed.

Lemma accepted_spec env accessToken userData w :
  __mapAccessToken2UserData (accepted env accessToken userData w) = __mapAccessToken2UserData w
  /\ dbc (accepted env accessToken userData w) = dbc w
  /\ res (accepted env accessToken userData w) = mkResponse (Some userData)
  /\ session (req (accepted env accessToken userData w)) =
     match session (req w) with
     | Some _ => Some (mkSession (Some (mkSessionUser (Some accessToken))))
     | None => None
     end
  /\ trace (accepted env accessToken userData w) =
     trace w ++
     match session (req w), session_save env with
     | Some _, Some error => [SessionSave; Next; ConsoleError error]
     | Some _, None => [SessionSave; Next]
     | None, _ => [Next]
     end.
Proof.
  unfold accepted, then_, effect, remember_token, save_callback, emit, resolve. simpl.
  destruct (session (req w)) eqn:Hsession; [destruct (session_save env) |]; simpl;
    rewrite <- ?app_assoc, ?Hsession; auto.
Qed.

(** The resolver on a miss the provider rejects. *)
Lemma resolver_of_rejection env accessToken w e :
  unshadowed w ->
  __mapAccessToken2UserData w !! accessToken = None ->
  graph_api env accessToken = HttpRejects e ->
  __getUserDataFromAccessToken env accessToken w =
  (Ok None, log (ConsoleError e) (log (HttpGet accessToken) w)).
Proof.
  unfold unshadowed. intros Hmethod Hmiss Hreply.
  unfold __getUserDataFromAccessToken, __getUserDataFromFacebook.
  rewrite Hmethod, Hmiss. unfold catch_, then_, settle, emit, effect. by rewrite Hreply.
Qed.

(** X1. A request off the logout route whose token is not cached, so that
    the provider is called, while the provider rejects the call: the rejection is logged, then the
    [LOGIN_REQUIRED] error, the failure is sent and the response ended;
    nothing is asked of the store, nothing is cached, nothing is written to
    [res.locals], and the middleware returns normally. *)
Theorem provider_outage_is_login_required env r w accessToken e :
  __isLogoutRoute (url r) = false ->
  extract_token r = Some accessToken ->
  unshadowed w ->
  __mapAccessToken2UserData w !! accessToken = None ->
  graph_api env accessToken = HttpRejects e ->
  let '(returned, w') := serve env r w in
  returned = Ok tt
  /\ __mapAccessToken2UserData w' = __mapAccessToken2UserData w
  /\ locals_metisoft_user (res w') = None
  /\ trace w' =
     trace w ++ [HttpGet accessToken; ConsoleError e;
                 ConsoleError (Error "LOGIN_REQUIRED");
                 ResSend LOGIN_REQUIRED; ResEnd].
Proof.
  intros Hroute Htoken Hmethod Hmiss Hreply. unfold serve.
  rewrite middleware_off_logout by done. simpl. rewrite Htoken.
  rewrite (resolver_of_rejection env accessToken _ e) by done.
  destruct (rejected_spec (log (ConsoleError (Error "LOGIN_REQUIRED"))
                              (log (ConsoleError e) (log (HttpGet accessToken)
                                 (set_res (mkResponse None) (set_req r w))))))
    as (Hcache & _ & Hres & _ & Htrace).
  rewrite Hcache, Hres, Htrace. simpl. by rewrite <- !app_assoc.
Qed.

Lemma provider_outage_is_login_required_witness :
  let '(returned, w') := serve Outage.env (Scenario.login "T1") Scenario.configured in
  returned = Ok tt
  /\ __mapAccessToken2UserData w' = ∅
  /\ locals_metisoft_user (res w') = None
  /\ trace w' =
     [HttpGet "T1"; ConsoleError (RequestError "ECONNREFUSED");
      ConsoleError (Error "LOGIN_REQUIRED"); ResSend LOGIN_REQUIRED; ResEnd].
Proof.
  exact (provider_outage_is_login_required
           Outage.env (Scenario.login "T1") Scenario.configured "T1"
           (RequestError "ECONNREFUSED") eq_refl eq_refl eq_refl eq_refl eq_refl).
Defined.

(** X2. With a connection, a miss of a cache that can be asked and a valid
    payload, a lookup that is
    rejected, or that resolves without any row object, ends the resolution:
    the error (for the missing row, the [TypeError] of [user.id]) is logged
    once, no insert is sent, the resolver yields [null] and caches nothing. *)
Theorem lookup_failure_is_null env accessToken w props connection :
  dbc w = Some connection ->
  unshadowed w ->
  __mapAccessToken2UserData w !! accessToken = None ->
  graph_api env accessToken = HttpResolves (Json (JObj props)) ->
  __isValidFacebookUserData (JObj props) = Ok true ->
  forall err,
    (select_site_user env (facebookId (internal_of props)) = DbRejects err
     \/ (select_site_user env (facebookId (internal_of props)) = DbResolves None
         /\ err = TypeError "Cannot read property 'id' of undefined")) ->
    let '(r, w') := __getUserDataFromAccessToken env accessToken w in
    r = Ok None
    /\ __mapAccessToken2UserData w' = __mapAccessToken2UserData w
    /\ trace w' =
       trace w ++ [HttpGet accessToken; StoreCall (internal_of props);
                   SqlSelect (facebookId (internal_of props)); ConsoleError err].
Proof.
  intros Hdbc Hmethod Hmiss Hreply Hvalid err Hselect.
  rewrite (resolver_of_valid env accessToken w props Hmethod Hmiss Hreply Hvalid).
  unfold __saveUserToDb, __getUserFromDb, then_, emit, effect, resolve, reject. simpl.
  rewrite Hdbc. simpl in Hselect.
  destruct Hselect as [Hselect | [Hselect ->]]; rewrite Hselect; simpl;
    by rewrite <- !app_assoc.
Qed.

Lemma lookup_failure_is_null_witness :
  let '(r, w') :=
    __getUserDataFromAccessToken Outage.lookup_refused "T1" Scenario.configured in
  r = Ok None
  /\ __mapAccessToken2UserData w' = ∅
  /\ trace w' =
     [HttpGet "T1"; StoreCall Reinsert.fetched; SqlSelect (JStr "F1");
      ConsoleError (DatabaseError "connection terminated")].
Proof.
  exact (lookup_failure_is_null
           Outage.lookup_refused "T1" Scenario.configured
           [("id", JStr "F1"); ("name", JStr "Ann"); ("email", JStr "a@x.com")]
           (mkConnection "site") eq_refl eq_refl eq_refl eq_refl eq_refl
           (DatabaseError "connection terminated") (or_introl eq_refl)).
Defined.

(** X3. When the lookup finds no truthy [id] and the insert resolves
    without a row, [row.id] throws inside the adapter's own chain: the
    adapter logs that [TypeError] and returns [null], after exactly one
    insert; the record it was given gets no [id]. *)
Theorem insert_without_row_is_null env userData w connection row :
  dbc w = Some connection ->
  select_site_user env (facebookId userData) = DbResolves (Some row) ->
  truthy (id row) = false ->
  insert_site_user env (facebookId userData) (email userData) (fullName userData)
  = DbResolves None ->
  let '(r, w') := __saveUserToDb env userData w in
  r = Ok None
  /\ trace w' =
     trace w ++ [StoreCall userData; SqlSelect (facebookId userData);
                 SqlInsert (facebookId userData) (email userData) (fullName userData);
                 ConsoleError (TypeError "Cannot read property 'id' of undefined")].
Proof.
  intros Hdbc Hselect Hfalsy Hinsert.
  unfold __saveUserToDb, __getUserFromDb, then_, emit, effect. simpl.
  rewrite Hdbc, Hselect. unfold resolve. rewrite Hfalsy. simpl.
  unfold __addUserToDb, catch_, then_, emit, effect, reject. simpl.
  rewrite Hdbc, Hinsert. simpl. by rewrite <- !app_assoc.
Qed.

Lemma insert_without_row_is_null_witness :
  let '(r, w') :=
    __saveUserToDb Outage.insert_without_row Reinsert.fetched Scenario.configured in
  r = Ok None /\ inserts (trace w') = 1.
Proof.
  pose proof (insert_without_row_is_null
                Outage.insert_without_row Reinsert.fetched Scenario.configured
                (mkConnection "site") Scenario.no_row eq_refl eq_refl eq_refl eq_refl) as H.
  destruct (__saveUserToDb Outage.insert_without_row Reinsert.fetched Scenario.configured)
    as [r w'].
  destruct H as [-> ->]. split; reflexivity.
Defined.

(** ** Beyond the claims: how much one request may cost *)

(** The events one request adds stay within the budget. *)
Lemma serve_within_budget env r w :
  exists evs, trace (snd (serve env r w)) = trace w ++ evs /\ within_budget evs = true.
Proof.
  unfold serve. destruct (facebookAuthMiddleware env _) as [returned w'] eqn:Hrun.
  run; rewrite <- ?app_assoc; simpl; eexists; (split; [reflexivity | reflexivity]) ||
    (split; [symmetry; apply app_nil_r | reflexivity]).
Qed.

Lemma within_budget_inv evs :
  within_budget evs = true ->
  inserts evs <= selects evs /\ selects evs <= store_calls evs
  /\ store_calls evs <= provider_calls evs /\ provider_calls evs <= 1.
Proof.
  unfold within_budget. rewrite !andb_true_iff, !Nat.leb_le. tauto.
Qed.

(** X4. Whatever the requests and whatever the outside world answers, the
    middleware never retries and never skips a step: over a sequence of
    requests there are at most as many provider calls as requests, no more
    calls of the store adapter than provider calls, no more lookups than
    calls of the adapter, and no more inserts than lookups. *)
Theorem call_budget requests :
  forall w,
  exists evs,
    trace (serve_all requests w) = trace w ++ evs
    /\ inserts evs <= selects evs
    /\ selects evs <= store_calls evs
    /\ store_calls evs <= provider_calls evs
    /\ provider_calls evs <= length requests.
Proof.
  induction requests as [| [env r] rest IH]; intros w.
  - exists []. simpl. rewrite app_nil_r. unfold inserts, selects, store_calls,
      provider_calls, count. simpl. repeat split; lia.
  - simpl. destruct (serve_within_budget env r w) as (evs1 & Htrace1 & Hbudget).
    apply within_budget_inv in Hbudget as (Hi & Hs & Hc & Hp).
    destruct (IH (snd (serve env r w))) as (evs2 & Htrace2 & Hi2 & Hs2 & Hc2 & Hp2).
    exists (evs1 ++ evs2). rewrite Htrace2, Htrace1, <- app_assoc.
    unfold inserts, selects, store_calls, provider_calls in *.
    rewrite !count_app. repeat split; lia.
Qed.

(** ** Beyond the claims: the logout route *)

(** X5. On the logout route the token is never checked: no call goes to the
    provider or to the store and nothing is sent to the client or written to
    [res.locals]; with a session the run adds exactly [destroy] and [next]
    and returns normally, without one it adds nothing and throws. *)
Theorem logout_is_unauthenticated env w :
  __isLogoutRoute (url (req w)) = true ->
  let '(returned, w') := facebookAuthMiddleware env w in
  trace w' = trace w ++ match session (req w) with
                        | Some _ => [SessionDestroy; Next]
                        | None => []
                        end
  /\ res w' = res w
  /\ dbc w' = dbc w
  /\ (returned = Ok tt <-> session (req w) <> None).
Proof.
  intros Hroute. unfold facebookAuthMiddleware. rewrite Hroute.
  unfold then_, effect, session_destroy, emit. simpl.
  destruct (session (req w)) as [s |]; simpl.
  - rewrite <- app_assoc. by repeat split.
  - rewrite app_nil_r. split; [done | split; [done | split; [done |]]].
    split; [discriminate | by intros []].
Qed.

Lemma logout_is_unauthenticated_witness :
  let w := set_req (Scenario.logout "no such token") Scenario.configured in
  let '(returned, w') := facebookAuthMiddleware Outage.env w in
  trace w' = [SessionDestroy; Next] /\ returned = Ok tt.
Proof.
  cbv zeta.
  pose proof (logout_is_unauthenticated
                Outage.env (set_req (Scenario.logout "no such token") Scenario.configured)
                eq_refl) as H.
  destruct (facebookAuthMiddleware Outage.env _) as [returned w'].
  destruct H as (Htrace & _ & _ & Hreturned).
  split; [exact Htrace | apply Hreturned; discriminate].
Defined.

(** X6. A logout evicts one key and no other: the extracted token, or the
    property name ["undefined"] when the request carries none; every other
    token stays cached with its record, session or no session. *)
Theorem logout_evicts_only_its_token env w :
  __isLogoutRoute (url (req w)) = true ->
  let cache' := __mapAccessToken2UserData (snd (facebookAuthMiddleware env w)) in
  cache' !! property_key (extract_token (req w)) = None
  /\ (extract_token (req w) = None -> cache' !! "undefined" = None)
  /\ (forall other,
         other <> property_key (extract_token (req w)) ->
         cache' !! other = __mapAccessToken2UserData w !! other).
Proof.
  intros Hroute. cbv zeta. rewrite middleware_cache, Hroute.
  split; [apply lookup_delete_eq | split].
  - intros ->. apply lookup_delete_eq.
  - intros other Hother. by apply lookup_delete_ne.
Qed.

Lemma logout_evicts_only_its_token_witness :
  let w := set_req (Scenario.logout "T9") Logout.logged_in in
  let cache' := __mapAccessToken2UserData (snd (facebookAuthMiddleware Scenario.env w)) in
  cache' !! "T9" = None /\ cache' !! "T1" = Some Scenario.ann_record.
Proof.
  cbv zeta.
  destruct (logout_evicts_only_its_token
              Scenario.env (set_req (Scenario.logout "T9") Logout.logged_in) eq_refl)
    as (Hgone & _ & Hkept).
  split; [exact Hgone |].
  rewrite (Hkept "T1"); [reflexivity | discriminate].
Defined.

(** ** Beyond the claims: authenticated routes *)

(** All a run of the resolver changes. *)
Lemma resolver_run env accessToken w r w1 :
  __getUserDataFromAccessToken env accessToken w = (r, w1) ->
  dbc w1 = dbc w /\ req w1 = req w /\ res w1 = res w
  /\ outcome (trace w1) = outcome (trace w)
  /\ match r with
     | Ok (Some userData) =>
         __mapAccessToken2UserData w1 = assign accessToken userData (__mapAccessToken2UserData w)
     | _ => __mapAccessToken2UserData w1 = __mapAccessToken2UserData w
     end.
Proof.
  intros Hrun.
  pose proof (resolver_frame env accessToken w) as (Hdbc & Hreq & Hres).
  pose proof (resolver_outcome env accessToken w) as Hout.
  pose proof (resolver_cache env accessToken w) as Hcache.
  rewrite Hrun in *. simpl in *. auto.
Qed.

Lemma extract_token_nonempty r accessToken :
  extract_token r = Some accessToken -> accessToken <> "".
Proof.
  assert (Htruthy : forall t, truthy_token t = Some accessToken -> accessToken <> "").
  { intros [s |]; simpl; [| discriminate].
    destruct (String.eqb_spec s ""); [discriminate | congruence]. }
  unfold extract_token.
  destruct (body r) as [[b] |]; simpl.
  - destruct (truthy_token b) eqn:Hb; [intros [= ->]; by eapply Htruthy |].
    destruct (session r) as [[[[u] |]] |]; simpl; try discriminate. apply Htruthy.
  - destruct (session r) as [[[[u] |]] |]; simpl; try discriminate. apply Htruthy.
Qed.

(** Off the logout route, while the cache can be asked, a request ends in
    one of two ways. *)
Lemma serve_off_logout env r w :
  __isLogoutRoute (url r) = false ->
  unshadowed w ->
  fst (serve env r w) = Ok tt
  /\ ((exists w1,
          snd (serve env r w) = rejected w1
          /\ req w1 = r /\ res w1 = mkResponse None
          /\ outcome (trace w1) = outcome (trace w)
          /\ __mapAccessToken2UserData w1 = __mapAccessToken2UserData w)
      \/ (exists accessToken userData w1,
             extract_token r = Some accessToken
             /\ __getUserDataFromAccessToken env accessToken
                  (set_res (mkResponse None) (set_req r w)) = (Ok (Some userData), w1)
             /\ snd (serve env r w) = accepted env accessToken userData w1)).
Proof.
  intros Hroute Hmethod. unfold serve. rewrite middleware_off_logout by done. simpl.
  destruct (extract_token r) as [accessToken |].
  - destruct (resolver_never_rejects env accessToken
                (set_res (mkResponse None) (set_req r w)) Hmethod) as [result Hresult].
    destruct (__getUserDataFromAccessToken env accessToken _) as [r1 w1] eqn:Hrun.
    simpl in Hresult. subst r1.
    destruct result as [userData |]; simpl; (split; [reflexivity |]).
    + right. by exists accessToken, userData, w1.
    + left. eexists. split; [reflexivity |].
      destruct (resolver_run _ _ _ _ _ Hrun) as (_ & Hreq & Hres & Hout & Hcache).
      simpl in *. rewrite outcome_app, Hout, Hreq, Hres, Hcache. simpl.
      by rewrite app_nil_r.
  - split; [reflexivity |]. left. by eexists.
Qed.

(** X7. Off the logout route, while no token named [hasOwnProperty] is
    cached, every request returns normally and ends in exactly one of two
    ways.  Either the failure is sent and the response ended, [next] is not
    called, [res.locals] stays empty and the session holds no user; or
    [next] is called once, nothing is sent, and [res.locals.metisoft.user]
    is the record the resolver yielded for the token the request carried,
    which the cache now holds under that token unless the token is
    [__proto__]: downstream handlers never run without that identity. *)
Theorem authenticated_or_rejected env r w :
  __isLogoutRoute (url r) = false ->
  unshadowed w ->
  let '(returned, w') := serve env r w in
  returned = Ok tt
  /\ ((outcome (trace w') = outcome (trace w) ++ [ResSend LOGIN_REQUIRED; ResEnd]
       /\ locals_metisoft_user (res w') = None
       /\ session (req w') ≫= user = None)
      \/ (outcome (trace w') = outcome (trace w) ++ [Next]
          /\ exists accessToken userData,
              extract_token r = Some accessToken
              /\ fst (__getUserDataFromAccessToken env accessToken
                        (set_res (mkResponse None) (set_req r w))) = Ok (Some userData)
              /\ locals_metisoft_user (res w') = Some userData
              /\ (accessToken <> "__proto__" ->
                  __mapAccessToken2UserData w' !! accessToken = Some userData))).
Proof.
  intros Hroute Hmethod.
  destruct (serve_off_logout env r w Hroute Hmethod) as [Hreturned Hend].
  destruct (serve env r w) as [returned w']. simpl in *.
  split; [done |].
  destruct Hend as [(w1 & -> & Hreq & Hres & Hout & _)
                   | (accessToken & userData & w1 & Htoken & Hrun & ->)].
  - left. destruct (rejected_spec w1) as (_ & _ & Hres' & Hreq' & Htrace).
    rewrite Htrace, outcome_app, Hout, Hres', Hres, Hreq'. simpl.
    repeat split; auto. apply delete_session_user_spec.
  - right. destruct (accepted_spec env accessToken userData w1)
      as (Hcache & _ & Hres & _ & Htrace).
    destruct (resolver_run _ _ _ _ _ Hrun) as (_ & _ & _ & Hout & Hcache1).
    simpl in Hout. split.
    + rewrite Htrace, outcome_app, Hout.
      by destruct (session (req w1)); [destruct (session_save env) |].
    + exists accessToken, userData. rewrite Hrun, Hcache, Hcache1, Hres.
      split; [done | split; [done | split; [done |]]].
      intros Hproto. by apply assign_lookup.
Qed.

Lemma authenticated_or_rejected_witness :
  let '(returned, w') := serve Scenario.env (Scenario.login "T1") Scenario.configured in
  returned = Ok tt
  /\ exists accessToken userData,
      extract_token (Scenario.login "T1") = Some accessToken
      /\ locals_metisoft_user (res w') = Some userData.
Proof.
  pose proof (authenticated_or_rejected
                Scenario.env (Scenario.login "T1") Scenario.configured eq_refl eq_refl) as H.
  destruct (serve Scenario.env (Scenario.login "T1") Scenario.configured)
    as [returned w'] eqn:Hrun.
  destruct H as [Hreturned [(_ & Hnone & _) | (_ & accessToken & userData & Ht & _ & Hl & _)]].
  - exfalso. apply (f_equal (fun x => locals_metisoft_user (res (snd x)))) in Hrun.
    simpl in Hrun. rewrite Hnone in Hrun. vm_compute in Hrun. discriminate.
  - split; [exact Hreturned |]. by exists accessToken, userData.
Defined.

(** One request leaves an entry where it is, unless it is a logout that
    names the entry's token. *)
Lemma serve_keeps_entry env r w accessToken userData :
  __isLogoutRoute (url r) = false \/ property_key (extract_token r) <> accessToken ->
  __mapAccessToken2UserData w !! accessToken = Some userData ->
  __mapAccessToken2UserData (snd (serve env r w)) !! accessToken = Some userData.
Proof.
  intros Hkeep Hin. unfold serve. rewrite middleware_cache. simpl.
  destruct (__isLogoutRoute (url r)).
  { destruct Hkeep as [? | Hother]; [done |]. by rewrite lookup_delete_ne. }
  destruct (extract_token r) as [token |]; [| done].
  destruct (__getUserDataFromAccessToken env token _) as [result w1] eqn:Hrun.
  destruct (resolver_run _ _ _ _ _ Hrun) as (_ & _ & _ & _ & Hcache). simpl in *.
  destruct result as [[record |] | err]; rewrite Hcache; try done.
  destruct (decide (accessToken = token)) as [-> | Hne];
    [| by rewrite assign_lookup_ne].
  destruct (resolver_yields env token _ w1 record Hrun) as [Hhit | [Hmiss _]];
    simpl in *; [| congruence].
  rewrite assign_hit by done. done.
Qed.

(** X8. A cached record is never overwritten and never expires: through any
    sequence of requests in which no logout names its token, the token stays
    mapped to the very same record, whatever the provider and the store
    answer meanwhile. *)
Theorem cache_entries_persist requests :
  forall w accessToken userData,
    Forall (fun '(_, r) =>
              __isLogoutRoute (url r) = false
              \/ property_key (extract_token r) <> accessToken) requests ->
    __mapAccessToken2UserData w !! accessToken = Some userData ->
    __mapAccessToken2UserData (serve_all requests w) !! accessToken = Some userData.
Proof.
  induction requests as [| [env r] rest IH]; intros w accessToken userData Hkeep Hin;
    [done |].
  inversion Hkeep as [| ? ? Hhead Htail]; subst. simpl.
  apply IH; [done |]. by apply serve_keeps_entry.
Qed.

Lemma cache_entries_persist_witness :
  __mapAccessToken2UserData
    (serve_all [(Outage.env, Scenario.login "T2");
                (NullId.env, Outage.relogin);
                (Outage.env, Scenario.logout "T2");
                (Outage.env, Scenario.login "T1")] Logout.logged_in) !! "T1"
  = Some Scenario.ann_record.
Proof.
  apply cache_entries_persist; [| reflexivity].
  repeat (apply List.Forall_cons; [first [left; reflexivity | right; discriminate] |]).
  apply List.Forall_nil.
Defined.

(** ** Beyond the claims: sessions *)

Lemma truthy_token_nonempty accessToken :
  accessToken <> "" -> truthy_token (Some accessToken) = Some accessToken.
Proof. intros Hne. simpl. by destruct (String.eqb_spec accessToken ""). Qed.

(** X9. Login, then come back with the session alone.  When a request off
    the logout route that has a session is authenticated as a record, with a
    token other than [__proto__] and [hasOwnProperty] and a cache that can
    be asked, the next request of that session, sent without a body, is
    authenticated as the same record from the cache: no call goes to the
    provider or to the store adapter, whatever they would answer by now, and
    [next] is called. *)
Theorem session_round_trip env r w accessToken userData env2 url2 :
  __isLogoutRoute (url r) = false ->
  unshadowed w ->
  extract_token r = Some accessToken ->
  ordinary accessToken ->
  session r <> None ->
  locals_metisoft_user (res (snd (serve env r w))) = Some userData ->
  __isLogoutRoute url2 = false ->
  let w1 := snd (serve env r w) in
  let '(returned, w2) := serve env2 (follow_up url2 w1) w1 in
  returned = Ok tt
  /\ locals_metisoft_user (res w2) = Some userData
  /\ provider_calls (trace w2) = provider_calls (trace w1)
  /\ store_calls (trace w2) = store_calls (trace w1)
  /\ outcome (trace w2) = outcome (trace w1) ++ [Next].
Proof.
  intros Hroute Hmethod Htoken [Hproto Hname] Hsession Hlocals Hroute2. cbv zeta.
  destruct (serve_off_logout env r w Hroute Hmethod) as [_ Hend].
  destruct Hend as [(w1 & Hw1 & _ & Hres & _) | (token & record & w1 & Htoken' & Hrun & Hw1)];
    rewrite Hw1 in *.
  { destruct (rejected_spec w1) as (_ & _ & Hres' & _).
    rewrite Hres', Hres in Hlocals. discriminate. }
  rewrite Htoken in Htoken'. injection Htoken' as <-.
  destruct (accepted_spec env accessToken record w1) as (Hcache & _ & Hres & Hsess & _).
  destruct (resolver_run _ _ _ _ _ Hrun) as (_ & Hreq & _ & _ & Hcache1).
  simpl in Hreq. rewrite Hres in Hlocals. simpl in Hlocals. injection Hlocals as ->.
  rewrite Hreq in Hsess.
  destruct (session r) as [s |]; [clear Hsession | done].
  assert (Hnext : extract_token (follow_up url2 (accepted env accessToken userData w1))
                  = Some accessToken).
  { unfold follow_up, extract_token. simpl. rewrite Hsess. simpl.
    destruct (String.eqb_spec accessToken ""); [| done].
    by destruct (extract_token_nonempty r accessToken Htoken). }
  unfold serve. rewrite middleware_off_logout by done. simpl. rewrite Hnext.
  rewrite (cache_hit env2 accessToken _ userData).
  2: { unfold unshadowed in *. simpl in *. rewrite Hcache, Hcache1.
       by rewrite assign_lookup_ne. }
  2: { simpl. rewrite Hcache, Hcache1. by apply assign_lookup. }
  set (w0 := set_res _ _).
  destruct (accepted_spec env2 accessToken userData w0) as (_ & _ & Hres2 & _ & Htrace2).
  rewrite Hres2, Htrace2. unfold provider_calls, store_calls. rewrite !count_app, outcome_app.
  subst w0. simpl. rewrite Hsess.
  destruct (session_save env2); unfold count; simpl; repeat split; auto; lia.
Qed.

Lemma session_round_trip_witness :
  let w1 := snd (serve Scenario.env (Scenario.login "T1") Scenario.configured) in
  let '(returned, w2) := serve Outage.env (follow_up "/services/data" w1) w1 in
  returned = Ok tt
  /\ locals_metisoft_user (res w2) = Some Scenario.ann_record
  /\ provider_calls (trace w2) = provider_calls (trace w1)
  /\ store_calls (trace w2) = store_calls (trace w1)
  /\ outcome (trace w2) = outcome (trace w1) ++ [Next].
Proof.
  apply (session_round_trip Scenario.env (Scenario.login "T1") Scenario.configured
           "T1" Scenario.ann_record Outage.env "/services/data").
  - reflexivity.
  - reflexivity.
  - reflexivity.
  - split; discriminate.
  - discriminate.
  - reflexivity.
  - reflexivity.
Defined.

(** X10. The token of the body wins over the token of the session, and a
    failure costs the session its user: when a non-empty body token resolves
    to [null], [req.session.user] is deleted although the session's own
    token was never checked, while the cache, that token's entry included,
    is as it was. *)
Theorem failed_body_login_drops_session env r w b bodyToken :
  __isLogoutRoute (url r) = false ->
  body r = Some b ->
  facebookAccessToken b = Some bodyToken ->
  bodyToken <> "" ->
  fst (__getUserDataFromAccessToken env bodyToken
         (set_res (mkResponse None) (set_req r w))) = Ok None ->
  let '(returned, w') := serve env r w in
  returned = Ok tt
  /\ extract_token r = Some bodyToken
  /\ session (req w') ≫= user = None
  /\ __mapAccessToken2UserData w' = __mapAccessToken2UserData w
  /\ outcome (trace w') = outcome (trace w) ++ [ResSend LOGIN_REQUIRED; ResEnd].
Proof.
  intros Hroute Hbody Hfield Hne Hnull.
  assert (Htoken : extract_token r = Some bodyToken).
  { unfold extract_token. rewrite Hbody. simpl. rewrite Hfield.
    by rewrite truthy_token_nonempty. }
  unfold serve. rewrite middleware_off_logout by done. simpl. rewrite Htoken.
  destruct (__getUserDataFromAccessToken env bodyToken _) as [result w1] eqn:Hrun.
  simpl in Hnull. subst result.
  destruct (resolver_run _ _ _ _ _ Hrun) as (_ & Hreq & _ & Hout & Hcache).
  destruct (rejected_spec (log (ConsoleError (Error "LOGIN_REQUIRED")) w1))
    as (Hcache' & _ & _ & Hreq' & Htrace).
  rewrite Hcache', Hreq', Htrace. simpl in *.
  rewrite <- app_assoc, outcome_app, Hout, Hreq, Hcache. simpl.
  repeat split; auto. apply delete_session_user_spec.
Qed.

Lemma failed_body_login_drops_session_witness :
  let '(returned, w') := serve Scenario.env Outage.relogin Logout.logged_in in
  returned = Ok tt
  /\ session (req w') ≫= user = None
  /\ __mapAccessToken2UserData w' !! "T1" = Some Scenario.ann_record.
Proof.
  pose proof (failed_body_login_drops_session
                Scenario.env Outage.relogin Logout.logged_in (mkBody (Some "T2")) "T2"
                eq_refl eq_refl eq_refl) as H.
  destruct (serve Scenario.env Outage.relogin Logout.logged_in) as [returned w'].
  destruct H as (Hreturned & _ & Hsession & Hcache & _); [discriminate | reflexivity |].
  split; [exact Hreturned | split; [exact Hsession |]].
  rewrite Hcache. reflexivity.
Defined.

(** ** Beyond the claims: the connection and the log *)

(** X11. Only [config] writes [dbc]: whatever requests are served, logout
    and failures included, the connection stays the one [config] set, and
    stays missing while [config] was not called. *)
Theorem connection_persists requests :
  forall w,
    dbc (serve_all requests w) = dbc w
    /\ forall database,
        dbc (serve_all requests (snd (config database w))) = Some (mkConnection database).
Proof.
  assert (Hkeep : forall w, dbc (serve_all requests w) = dbc w).
  { induction requests as [| [env r] rest IH]; intros w; [done |].
    simpl. by rewrite IH, serve_keeps_dbc. }
  intros w. split; [apply Hkeep |]. intros database. by rewrite Hkeep.
Qed.

(** X12. What a rejected payload leaves in the log.  On a miss of a cache
    that can be asked, a text that does not parse, a payload that is [null]
    and a payload that owns a property named [hasOwnProperty] each log one
    error, the one [JSON.parse] or the call of [hasOwnProperty] threw; a
    payload on which the three calls of [hasOwnProperty] go through and one
    answers [false] is turned down without a word: the provider call is all
    the run adds. *)
Theorem rejection_logging env accessToken w :
  unshadowed w ->
  __mapAccessToken2UserData w !! accessToken = None ->
  let w' := snd (__getUserDataFromAccessToken env accessToken w) in
  (forall text,
      graph_api env accessToken = HttpResolves (Malformed text) ->
      exists message,
        trace w' = trace w ++ [HttpGet accessToken; ConsoleError (SyntaxError message)])
  /\ (graph_api env accessToken = HttpResolves (Json JNull) ->
      exists message,
        trace w' = trace w ++ [HttpGet accessToken; ConsoleError (TypeError message)])
  /\ (forall props,
         graph_api env accessToken = HttpResolves (Json (JObj props)) ->
         is_Some (own_property props "hasOwnProperty") ->
         exists message,
           trace w' = trace w ++ [HttpGet accessToken; ConsoleError (TypeError message)])
  /\ (forall payload,
         graph_api env accessToken = HttpResolves (Json payload) ->
         __isValidFacebookUserData payload = Ok false ->
         trace w' = trace w ++ [HttpGet accessToken]).
Proof.
  unfold unshadowed. intros Hmethod Hmiss. cbv zeta.
  unfold __getUserDataFromAccessToken, __getUserDataFromFacebook.
  rewrite Hmethod, Hmiss. unfold catch_, then_, settle, emit, effect, resolve.
  split; [| split; [| split]].
  - intros text ->. simpl. eexists. by rewrite <- app_assoc.
  - intros ->. simpl. eexists. by rewrite <- app_assoc.
  - intros props -> [shadow Hshadow]. simpl.
    unfold __isValidFacebookUserData, hasOwnProperty. rewrite Hshadow. simpl.
    eexists. by rewrite <- app_assoc.
  - intros payload -> Hinvalid. simpl. by rewrite Hinvalid.
Qed.

Lemma rejection_logging_witness :
  trace (snd (__getUserDataFromAccessToken Scenario.env "T2" Scenario.configured))
  = [HttpGet "T2"].
Proof.
  destruct (rejection_logging Scenario.env "T2" Scenario.configured eq_refl eq_refl)
    as (_ & _ & _ & Hsilent).
  exact (Hsilent Scenario.bob eq_refl eq_refl).
Defined.

(** ** Beyond the claims: requests that cost nothing, and retries *)

(** X13. A request off the logout route that carries no usable token (the
    body's token missing or the empty string, and the same for the
    session's) is turned down on the spot: the run adds exactly the failure
    and the end of the response, so no call goes to the provider or the
    store, and the cache is as it was. *)
Theorem tokenless_request_costs_nothing env r w :
  __isLogoutRoute (url r) = false ->
  (forall b t, body r = Some b -> facebookAccessToken b = Some t -> t = "") ->
  (forall s u t,
      session r = Some s -> user s = Some u -> session_facebookAccessToken u = Some t ->
      t = "") ->
  let '(returned, w') := serve env r w in
  returned = Ok tt
  /\ trace w' = trace w ++ [ResSend LOGIN_REQUIRED; ResEnd]
  /\ __mapAccessToken2UserData w' = __mapAccessToken2UserData w
  /\ locals_metisoft_user (res w') = None.
Proof.
  intros Hroute Hbody Hsession.
  assert (Hempty : forall t, (forall s, t = Some s -> s = "") -> truthy_token t = None).
  { intros [s |] Hs; [| done]. simpl. by rewrite (Hs s eq_refl). }
  assert (Htoken : extract_token r = None).
  { unfold extract_token.
    assert (Hb : body r ≫= (fun b => truthy_token (facebookAccessToken b)) = None).
    { destruct (body r) as [b |] eqn:Hbr; [| done]. simpl.
      apply Hempty. intros s Hs. by eapply Hbody. }
    rewrite Hb.
    destruct (session r) as [s |] eqn:Hsr; [| done]. simpl.
    destruct (user s) as [u |] eqn:Hu; [| done]. simpl.
    apply Hempty. intros t Ht. by eapply Hsession. }
  unfold serve. rewrite middleware_off_logout by done. simpl. rewrite Htoken.
  destruct (rejected_spec (set_res (mkResponse None) (set_req r w)))
    as (Hcache & _ & Hres & _ & Htrace).
  by rewrite Hcache, Hres, Htrace.
Qed.

Lemma tokenless_request_costs_nothing_witness :
  let r := mkRequest "/services/data" (Some (mkBody (Some "")))
                     (Some (mkSession (Some (mkSessionUser None)))) in
  let '(returned, w') := serve Scenario.env r Logout.logged_in in
  returned = Ok tt
  /\ trace w' = trace Logout.logged_in ++ [ResSend LOGIN_REQUIRED; ResEnd]
  /\ __mapAccessToken2UserData w' = __mapAccessToken2UserData Logout.logged_in
  /\ locals_metisoft_user (res w') = None.
Proof.
  apply (tokenless_request_costs_nothing
           Scenario.env
           (mkRequest "/services/data" (Some (mkBody (Some "")))
                      (Some (mkSession (Some (mkSessionUser None)))))
           Logout.logged_in).
  - reflexivity.
  - intros b t Hb Ht. injection Hb as <-. injection Ht as <-. reflexivity.
  - intros s u t Hs Hu Ht. injection Hs as <-. injection Hu as <-. discriminate.
Defined.

(** X14. A failure is not remembered: after a resolution of an uncached
    token that yields [null], the token is still uncached, and resolving it
    again goes to the provider again, exactly once, whatever happened the
    first time. *)
Theorem failure_is_retried env accessToken w env2 :
  __mapAccessToken2UserData w !! accessToken = None ->
  fst (__getUserDataFromAccessToken env accessToken w) = Ok None ->
  let w1 := snd (__getUserDataFromAccessToken env accessToken w) in
  __mapAccessToken2UserData w1 !! accessToken = None
  /\ provider_calls (trace (snd (__getUserDataFromAccessToken env2 accessToken w1)))
     = provider_calls (trace w) + 2.
Proof.
  intros Hmiss Hnull. cbv zeta.
  pose proof (resolver_ok_unshadowed env accessToken w None Hnull) as Hmethod.
  pose proof (miss_calls_provider_once env accessToken w Hmethod Hmiss) as Hfirst.
  destruct (__getUserDataFromAccessToken env accessToken w) as [r w1] eqn:Hrun.
  destruct (resolver_run _ _ _ _ _ Hrun) as (_ & _ & _ & _ & Hcache).
  simpl in *. subst r.
  assert (Hmiss1 : __mapAccessToken2UserData w1 !! accessToken = None)
    by by rewrite Hcache.
  assert (Hmethod1 : unshadowed w1) by (unfold unshadowed in *; by rewrite Hcache).
  split; [done |].
  rewrite (miss_calls_provider_once env2 accessToken w1 Hmethod1 Hmiss1). lia.
Qed.

Lemma failure_is_retried_witness :
  let w1 := snd (__getUserDataFromAccessToken Outage.env "T1" Scenario.configured) in
  __mapAccessToken2UserData w1 !! "T1" = None
  /\ provider_calls (trace (snd (__getUserDataFromAccessToken Scenario.env "T1" w1))) = 2.
Proof.
  exact (failure_is_retried Outage.env "T1" Scenario.configured Scenario.env
           eq_refl eq_refl).
Defined.

(** X15. Login, logout, come back.  After a logout that had a session, the
    next request of that client, sent without a body off the logout route,
    finds no session and no token: it is turned down with the failure, and
    no call goes to the provider, even if the token it used to carry is
    still valid there. *)
Theorem logout_ends_the_session env r w env2 url2 :
  __isLogoutRoute (url r) = true ->
  session r <> None ->
  __isLogoutRoute url2 = false ->
  let w1 := snd (serve env r w) in
  let '(returned, w2) := serve env2 (follow_up url2 w1) w1 in
  returned = Ok tt
  /\ trace w2 = trace w1 ++ [ResSend LOGIN_REQUIRED; ResEnd]
  /\ locals_metisoft_user (res w2) = None
  /\ __mapAccessToken2UserData w2 !! property_key (extract_token r) = None.
Proof.
  intros Hroute Hsession Hroute2. cbv zeta.
  destruct (session r) as [s |] eqn:Hs; [clear Hsession | done].
  pose proof (logout_with_session_evicts env (set_res (mkResponse None) (set_req r w)) s
                Hroute Hs) as Hlogout.
  unfold serve at 2 3 4. simpl in Hlogout.
  destruct (facebookAuthMiddleware env (set_res (mkResponse None) (set_req r w)))
    as [returned w1].
  destruct Hlogout as (_ & Hcache & Hgone & _). simpl.
  assert (Htoken : extract_token (follow_up url2 w1) = None).
  { unfold follow_up, extract_token. simpl. by rewrite Hgone. }
  unfold serve. rewrite middleware_off_logout by done. simpl. rewrite Htoken.
  destruct (rejected_spec (set_res (mkResponse None) (set_req (follow_up url2 w1) w1)))
    as (Hcache' & _ & Hres & _ & Htrace).
  rewrite Hcache', Hres, Htrace. simpl. rewrite Hcache.
  repeat split; auto. apply lookup_delete_eq.
Qed.

Lemma logout_ends_the_session_witness :
  let w1 := snd (serve Scenario.env (Scenario.logout "T1") Logout.logged_in) in
  let '(returned, w2) := serve Scenario.env (follow_up "/services/data" w1) w1 in
  returned = Ok tt
  /\ trace w2 = trace w1 ++ [ResSend LOGIN_REQUIRED; ResEnd]
  /\ locals_metisoft_user (res w2) = None
  /\ __mapAccessToken2UserData w2 !! "T1" = None.
Proof.
  apply (logout_ends_the_session Scenario.env (Scenario.logout "T1") Logout.logged_in
           Scenario.env "/services/data").
  - reflexivity.
  - discriminate.
  - reflexivity.
Defined.
